(** * DataProc: peak analysis of ion-chromatograph output

    A shallow embedding of [DataProc.py], the script that reads the text
    files written by the Metrohm ion chromatograph, finds the peak heights
    of chloride, nitrate and sulfate, fits one calibration line per anion
    from the four standards and writes the table of concentrations.

    Conventions of the embedding.
    - Numbers are exact rationals ([Q]): the script's float64 values
      without rounding, infinities or NaN. The comparisons of the script
      (a time against a window bound, a concentration against 2.5, two
      values under [np.max]) are the comparisons of [Q].
    - A file of the working directory is its name together with the frame
      [pd.read_csv(file, delim_whitespace=True, skiprows=4)] parses from
      it, with the default index 0, 1, 2, ...; the first column of that
      frame is text (the values carry a leading colon), the other columns
      are numbers.
    - An uncaught Python exception ends the run: fallible steps return a
      [result], and [Raise e] is the traceback the user sees.
    - [pd.to_numeric] is pandas' own parser; it is a parameter of the
      development ([to_numeric]), [None] where it raises.
    - [LinearRegression] is scikit-learn's; [fit] and [predict] are
      modelled from its contract.
    - The chromatogram plots are files written on the side; nothing later in
      the script reads them, and they are left out. *)

From Stdlib Require Import QArith Qfield Lqa Lia.
From Stdlib Require Import String Ascii Bool.
From Stdlib Require Import List.
From Stdlib Require Import Sorting Permutation Mergesort Orders OrderedTypeEx.
Import ListNotations.

Open Scope Q_scope.

(** ** Exceptions *)

Inductive exn : Type :=
| ValueError_to_numeric   (* pd.to_numeric: unable to parse a string *)
| ValueError_not_in_list  (* list.index: the value is not in the list *)
| IndexError              (* list index out of range *)
| ValueError_zero_size.   (* np.max of an array without elements *)

Inductive result (A : Type) : Type :=
| Ok (a : A)
| Raise (e : exn).

Arguments Ok {A} a.
Arguments Raise {A} e.

Definition bind {A B : Type} (m : result A) (k : A -> result B) : result B :=
  match m with
  | Ok a => k a
  | Raise e => Raise e
  end.

Notation "x <- m ;; k" := (bind m (fun x => k))
  (at level 61, m at next level, right associativity).

(** A [for] loop that appends one computed value per element and stops at
    the first exception. *)
Fixpoint mapM {A B : Type} (f : A -> result B) (l : list A) : result (list B) :=
  match l with
  | [] => Ok []
  | x :: xs => y <- f x ;; ys <- mapM f xs ;; Ok (y :: ys)
  end.

Definition of_option {A : Type} (e : exn) (o : option A) : result A :=
  match o with
  | Some a => Ok a
  | None => Raise e
  end.

(** ** Numbers *)

(** Python's [x < y] on two numbers. *)
Definition Qltb (x y : Q) : bool := negb (Qle_bool y x).

(** ** Files and frames *)

(** One row of a frame as [read_csv] returns it: the text of the first
    column and the numbers of the remaining columns. *)
Record raw_row : Type := { col0 : string; cols : list Q }.

Definition raw_frame : Type := list raw_row.

Record file : Type := { fname : string; parsed : raw_frame }.

(** [pd.read_csv(file, delim_whitespace=True, skiprows=4)]. *)
Definition read_csv (f : file) : raw_frame := parsed f.

(** A frame after the housekeeping loop: the index (one label per row) and
    the rows of values, first column first. *)
Record DataFrame : Type := { index : list Q; values : list (list Q) }.

(** *** File discovery *)

(** [name.endswith(ext)]. *)
Fixpoint endswith (ext s : string) : bool :=
  (s =? ext)%string ||
  match s with
  | EmptyString => false
  | String _ s' => endswith ext s'
  end.

(** [glob._ishidden]: the name starts with a dot. *)
Definition ishidden (s : string) : bool :=
  match s with
  | String c _ => (c =? ".")%char
  | EmptyString => false
  end.

(** [glob.glob(f"*{ext}")] over the entries of the working directory, in
    the order the operating system lists them: the names that end in [ext]
    and are not hidden. [ext] is literal text (".txt" in the script). *)
Definition glob_star (ext : string) (cwd : list file) : list file :=
  filter (fun f => negb (ishidden (fname f)) && endswith ext (fname f)) cwd.

(** [p[:p.rfind('.')]] when [p] contains a dot. *)
Fixpoint drop_ext (p : string) : option string :=
  match p with
  | EmptyString => None
  | String c p' =>
      match drop_ext p' with
      | Some r => Some (String c r)
      | None => if (c =? ".")%char then Some EmptyString else None
      end
  end.

(** [os.path.splitext(p)[0]] for a name without directory separators: the
    name up to its last dot, where the dots that lead the name do not start
    an extension. *)
Fixpoint splitext_root (p : string) : string :=
  match p with
  | EmptyString => EmptyString
  | String c p' =>
      if (c =? ".")%char then String c (splitext_root p')
      else match drop_ext p' with
           | Some r => String c r
           | None => p
           end
  end.

(** [OutputList(ext)]: the files found and the sample names. *)
Definition OutputList (ext : string) (cwd : list file) : list file * list string :=
  let files := glob_star ext cwd in
  let samples := map (fun val => splitext_root (fname val)) files in
  (files, samples).

(** *** Housekeeping *)

(** [x.lstrip(':')]. *)
Fixpoint lstrip_colon (x : string) : string :=
  match x with
  | String c x' => if (c =? ":")%char then lstrip_colon x' else x
  | EmptyString => EmptyString
  end.

(** [n.index / 60] for the default index 0, 1, ..., len - 1. *)
Definition minutes (k : nat) : Q := inject_Z (Z.of_nat k) / 60.

Definition RangeIndex_div60 (len : nat) : list Q := map minutes (seq 0 len).

(** A concrete reading of unsigned decimal integers: it agrees with
    [pd.to_numeric] on non-empty strings of digits and refuses every other
    string. It is used to run the script on example files. *)
Definition digit_of_ascii (c : ascii) : option Z :=
  let n := Z.of_nat (nat_of_ascii c) in
  if ((48 <=? n) && (n <=? 57))%Z then Some (n - 48)%Z else None.

Fixpoint digits_value (acc : Z) (s : string) : option Z :=
  match s with
  | EmptyString => Some acc
  | String c s' =>
      match digit_of_ascii c with
      | Some d => digits_value (10 * acc + d)%Z s'
      | None => None
      end
  end.

Definition digits_to_numeric (s : string) : option Q :=
  match s with
  | EmptyString => None
  | _ => option_map inject_Z (digits_value 0%Z s)
  end.

(** ** Label slices and peaks *)

(** [index.searchsorted(x, side='left')] on an increasing index: the number
    of leading labels below [x]. *)
Fixpoint searchsorted_left (idx : list Q) (x : Q) : nat :=
  match idx with
  | t :: idx' => if Qltb t x then S (searchsorted_left idx' x) else O
  | [] => O
  end.

(** [index.searchsorted(x, side='right')]: the number of leading labels
    that do not exceed [x]. *)
Fixpoint searchsorted_right (idx : list Q) (x : Q) : nat :=
  match idx with
  | t :: idx' => if Qle_bool t x then S (searchsorted_right idx' x) else O
  | [] => O
  end.

(** [rows[start:stop]]. *)
Definition slice {A : Type} (start stop : nat) (rows : list A) : list A :=
  firstn (stop - start) (skipn start rows).

(** [df.loc[a:b, :]] on the increasing index of a housekept frame: the
    positions run from the left insertion point of [a] to the right
    insertion point of [b]. *)
Definition loc (a b : Q) (df : DataFrame) : list (list Q) :=
  slice (searchsorted_left (index df) a) (searchsorted_right (index df) b)
        (values df).

(** [np.max(arr)] over every element of the array. *)
Definition np_max (arr : list Q) : result Q :=
  match arr with
  | [] => Raise ValueError_zero_size
  | x :: xs => Ok (fold_left (fun m y => if Qltb m y then y else m) xs x)
  end.

(** [np.asarray(rows)], read element by element. *)
Definition np_asarray (rows : list (list Q)) : list Q := concat rows.

(** The elution windows of the three anions, in minutes. *)
Inductive anion : Type := Cl | NO3 | SO4.

Definition window (an : anion) : Q * Q :=
  match an with
  | Cl => (5, 7)
  | NO3 => (9, 11)
  | SO4 => (12.5, 15)
  end.

(** [np.max(np.asarray(df.loc[a:b, :]))]. *)
Definition peak (an : anion) (df : DataFrame) : result Q :=
  let '(a, b) := window an in np_max (np_asarray (loc a b df)).

(** One pass of the peak loops: the three peaks of a frame, chloride
    first. *)
Definition peaks (df : DataFrame) : result (Q * Q * Q) :=
  c <- peak Cl df ;;
  n <- peak NO3 df ;;
  s <- peak SO4 df ;;
  Ok (c, n, s).

(** ** Calibration curves *)

(** Known standard concentrations, std1 to std4. *)
Definition stds_known : list Q := [2.5; 5; 10; 20].

Definition Qsum (l : list Q) : Q := fold_right Qplus 0 l.

(** [np.average(l, axis=0)]. *)
Definition Qmean (l : list Q) : Q := Qsum l / inject_Z (Z.of_nat (length l)).

(** A fitted [LinearRegression()] with one feature. *)
Record LinearRegression : Type := { coef_ : Q; intercept_ : Q }.

(** Modelled from the spec: [LinearRegression().fit(X, y)] is
    scikit-learn's and its code is not part of the repository. It fits the
    ordinary least-squares line [y = a x + b] through the points, without
    regularization. The steps are the library's for one feature: both
    sides are centred on their means, the centred system is solved in the
    least-squares sense, and the intercept is recovered from the means.
    When every [x] equals the mean the system has many solutions and the
    library returns the one of least norm, slope 0. *)
Definition fit (X y : list Q) : LinearRegression :=
  let X_offset := Qmean X in
  let y_offset := Qmean y in
  let Xc := map (fun x => x - X_offset) X in
  let yc := map (fun v => v - y_offset) y in
  let sxx := Qsum (map (fun x => x * x) Xc) in
  let sxy := Qsum (map (fun p => fst p * snd p) (combine Xc yc)) in
  let coef := if Qeq_bool sxx 0 then 0 else sxy / sxx in
  {| coef_ := coef; intercept_ := y_offset - X_offset * coef |}.

(** Modelled from the spec: [curve.predict(x)] on one value, the line
    [concentration = a * peak + b]. *)
Definition predict (curve : LinearRegression) (x : Q) : Q :=
  coef_ curve * x + intercept_ curve.

(** Sum of the squared residuals of the line [y = a x + b] on the points
    [(X, y)]. *)
Definition sq_residuals (a b : Q) (X y : list Q) : Q :=
  Qsum (map (fun p => (snd p - (a * fst p + b)) * (snd p - (a * fst p + b)))
            (combine X y)).

(** ** Comments *)

(** The body of the comment loops: [if i < 2.5: 'below std1' else: '']. *)
Definition comm (i : Q) : string :=
  if Qltb i 2.5 then "below std1"%string else ""%string.

(** ** The results table *)

Record ResultRow : Type := {
  Cl_peak : Q; NO3_peak : Q; SO4_peak : Q;
  Cl_ppm : Q; NO3_ppm : Q; SO4_ppm : Q;
  Cl_mmol : Q; NO3_mmol : Q; SO4_mmol : Q;
  Comments_Cl : string; Comments_NO3 : string; Comments_SO4 : string
}.

(** [pd.DataFrame({...}, index=samples)]: row [i] holds entry [i] of every
    column and is labelled by entry [i] of the index. The columns of the
    script all have the length of [samples]. *)
Definition results_frame
    (cl_unk no3_unk so4_unk cl_conc no3_conc so4_conc : list Q)
    (cl_mmol no3_mmol so4_mmol : list Q)
    (cl_comm no3_comm so4_comm : list string)
    (samples : list string) : list (string * ResultRow) :=
  map (fun i =>
         (nth i samples ""%string,
          {| Cl_peak := nth i cl_unk 0;
             NO3_peak := nth i no3_unk 0;
             SO4_peak := nth i so4_unk 0;
             Cl_ppm := nth i cl_conc 0;
             NO3_ppm := nth i no3_conc 0;
             SO4_ppm := nth i so4_conc 0;
             Cl_mmol := nth i cl_mmol 0;
             NO3_mmol := nth i no3_mmol 0;
             SO4_mmol := nth i so4_mmol 0;
             Comments_Cl := nth i cl_comm ""%string;
             Comments_NO3 := nth i no3_comm ""%string;
             Comments_SO4 := nth i so4_comm ""%string |}))
      (seq 0 (length samples)).

(** Rows are compared by their label, as Python compares strings:
    character by character, by code. *)
Module RowOrder <: TotalLeBool.
Definition t : Type := (string * ResultRow)%type.
Definition leb (x y : t) : bool := String.leb (fst x) (fst y).
Lemma leb_total : forall x y, leb x y = true \/ leb y x = true.
Proof. intros x y. apply String.leb_total. Qed.
End RowOrder.

Module RowSort := Sort RowOrder.

(** [results.sort_index()]: the rows in ascending order of their labels.
    The labels of a run are distinct (they are the file names of one
    directory without their extension), so the sorted table is the same
    for every sorting algorithm. *)
Definition sort_index (rows : list (string * ResultRow)) : list (string * ResultRow) :=
  RowSort.sort rows.

(** [samples.index(x)]. *)
Fixpoint list_index (x : string) (l : list string) : result nat :=
  match l with
  | [] => Raise ValueError_not_in_list
  | y :: l' => if (y =? x)%string then Ok O
               else i <- list_index x l' ;; Ok (S i)
  end.

(** [data[i]]. *)
Definition getitem {A : Type} (l : list A) (i : nat) : result A :=
  of_option IndexError (nth_error l i).

(** ** The script *)

(** The names bound at module level when the script ends. *)
Record globals : Type := {
  files : list file;
  samples : list string;
  data : list DataFrame;
  stds_indeces : list nat;
  stds_data : list DataFrame;
  cl_cal : list Q; no3_cal : list Q; so4_cal : list Q;
  CalibCurve_cl : LinearRegression;
  CalibCurve_no3 : LinearRegression;
  CalibCurve_so4 : LinearRegression;
  cl_unk : list Q; no3_unk : list Q; so4_unk : list Q;
  cl_conc : list Q; no3_conc : list Q; so4_conc : list Q;
  cl_comm : list string; no3_comm : list string; so4_comm : list string;
  results : list (string * ResultRow)
}.

Definition fst3 (p : Q * Q * Q) : Q := fst (fst p).
Definition snd3 (p : Q * Q * Q) : Q := snd (fst p).
Definition thd3 (p : Q * Q * Q) : Q := snd p.

Section Script.

(** [pd.to_numeric] on one string; [None] when it raises. *)
Variable to_numeric : string -> option Q.

(** The housekeeping loop on one frame: the first column is stripped of
    its colons and made numeric (it is the column renamed "SpCond"), and
    the index is divided by 60. *)
Definition housekeeping (n : raw_frame) : result DataFrame :=
  rows <- mapM (fun r =>
                  v <- of_option ValueError_to_numeric
                         (to_numeric (lstrip_colon (col0 r))) ;;
                  Ok (v :: cols r)) n ;;
  Ok {| index := RangeIndex_div60 (length n); values := rows |}.

Definition DataProc (cwd : list file) : result globals :=
  let '(files, samples) := OutputList ".txt" cwd in
  data <- mapM housekeeping (map read_csv files) ;;
  i1 <- list_index "std1" samples ;;
  i2 <- list_index "std2" samples ;;
  i3 <- list_index "std3" samples ;;
  i4 <- list_index "std4" samples ;;
  let stds_indeces := [i1; i2; i3; i4] in
  stds_data <- mapM (getitem data) stds_indeces ;;
  cal <- mapM peaks stds_data ;;
  let cl_cal := map fst3 cal in
  let no3_cal := map snd3 cal in
  let so4_cal := map thd3 cal in
  let CalibCurve_cl := fit cl_cal stds_known in
  let CalibCurve_no3 := fit no3_cal stds_known in
  let CalibCurve_so4 := fit so4_cal stds_known in
  unk <- mapM peaks data ;;
  let cl_unk := map fst3 unk in
  let no3_unk := map snd3 unk in
  let so4_unk := map thd3 unk in
  let cl_conc := map (predict CalibCurve_cl) cl_unk in
  let no3_conc := map (predict CalibCurve_no3) no3_unk in
  let so4_conc := map (predict CalibCurve_so4) so4_unk in
  let cl_comm := map comm cl_conc in
  let no3_comm := map comm no3_conc in
  let so4_comm := map comm so4_conc in
  let results :=
    results_frame cl_unk no3_unk so4_unk cl_conc no3_conc so4_conc
      (map (fun c => c / 35.453) cl_conc)
      (map (fun c => c / 62.0049) no3_conc)
      (map (fun c => c / 96.06) so4_conc)
      cl_comm no3_comm so4_comm samples in
  Ok {| files := files; samples := samples; data := data;
        stds_indeces := stds_indeces; stds_data := stds_data;
        cl_cal := cl_cal; no3_cal := no3_cal; so4_cal := so4_cal;
        CalibCurve_cl := CalibCurve_cl;
        CalibCurve_no3 := CalibCurve_no3;
        CalibCurve_so4 := CalibCurve_so4;
        cl_unk := cl_unk; no3_unk := no3_unk; so4_unk := so4_unk;
        cl_conc := cl_conc; no3_conc := no3_conc; so4_conc := so4_conc;
        cl_comm := cl_comm; no3_comm := no3_comm; so4_comm := so4_comm;
        results := sort_index results |}.

End Script.


(** ** Notions used to state the properties *)

(** Row [k] of a housekept frame has its time inside the closed window
    [[a, b]]. *)
Definition in_window (a b : Q) (k : nat) : Prop :=
  a <= minutes k /\ minutes k <= b.

(** [x] is a value of column [j] in a row of [df] whose time is inside
    [[a, b]]. *)
Definition window_column (a b : Q) (df : DataFrame) (j : nat) (x : Q) : Prop :=
  exists k row,
    nth_error (values df) k = Some row /\ in_window a b k /\
    nth_error row j = Some x.

(** [x] is a value of some column in a row of [df] whose time is inside
    [[a, b]]. *)
Definition window_cell (a b : Q) (df : DataFrame) (x : Q) : Prop :=
  exists j, window_column a b df j x.

(** [x] is a value of the first column, "SpCond", in such a row. *)
Definition window_SpCond (a b : Q) (df : DataFrame) (x : Q) : Prop :=
  window_column a b df 0 x.

(** [m] is one of the values that satisfy [P] and no such value exceeds
    it. *)
Definition greatest (P : Q -> Prop) (m : Q) : Prop :=
  P m /\ forall x, P x -> x <= m.

(** The rows of [df] whose label [t] satisfies [a <= t <= b], in the words
    of the window contract. *)
Definition inside (a b : Q) (p : Q * list Q) : bool :=
  Qle_bool a (fst p) && Qle_bool (fst p) b.

Definition rows_between (a b : Q) (df : DataFrame) : list (list Q) :=
  map snd (filter (inside a b) (combine (index df) (values df))).

(** The names the script looks up for the four standards, std1 first. *)
Definition std_names : list string :=
  ["std1"%string; "std2"%string; "std3"%string; "std4"%string].

(** The calibration peaks and the fitted curve of an anion. *)
Definition cal (an : anion) (g : globals) : list Q :=
  match an with
  | Cl => cl_cal g
  | NO3 => no3_cal g
  | SO4 => so4_cal g
  end.

Definition CalibCurve (an : anion) (g : globals) : LinearRegression :=
  match an with
  | Cl => CalibCurve_cl g
  | NO3 => CalibCurve_no3 g
  | SO4 => CalibCurve_so4 g
  end.

(** The peak of an anion among the three peaks of a sample. *)
Definition peak_of (an : anion) (pk : Q * Q * Q) : Q :=
  match an with
  | Cl => fst3 pk
  | NO3 => snd3 pk
  | SO4 => thd3 pk
  end.

(** The columns of a row of the table that belong to an anion. *)
Definition row_peak (an : anion) (r : ResultRow) : Q :=
  match an with
  | Cl => Cl_peak r
  | NO3 => NO3_peak r
  | SO4 => SO4_peak r
  end.



(** The row of the table computed from the three peaks of one sample and
    the three fitted curves: the columns of the script, read along a
    row. *)
Definition row_of (ccl cno3 cso4 : LinearRegression) (pk : Q * Q * Q) : ResultRow :=
  {| Cl_peak := fst3 pk; NO3_peak := snd3 pk; SO4_peak := thd3 pk;
     Cl_ppm := predict ccl (fst3 pk);
     NO3_ppm := predict cno3 (snd3 pk);
     SO4_ppm := predict cso4 (thd3 pk);
     Cl_mmol := predict ccl (fst3 pk) / 35.453;
     NO3_mmol := predict cno3 (snd3 pk) / 62.0049;
     SO4_mmol := predict cso4 (thd3 pk) / 96.06;
     Comments_Cl := comm (predict ccl (fst3 pk));
     Comments_NO3 := comm (predict cno3 (snd3 pk));
     Comments_SO4 := comm (predict cso4 (thd3 pk)) |}.

(** What a run leaves in the spreadsheet: the sorted table, or the
    exception that ended the run before [to_excel]. *)
Definition report (to_numeric : string -> option Q) (cwd : list file)
  : result (list (string * ResultRow)) :=
  g <- DataProc to_numeric cwd ;; Ok (results g).

(** The value of a step that did not raise. *)
Definition get_or {A : Type} (d : A) (r : result A) : A :=
  match r with
  | Ok a => a
  | Raise _ => d
  end.

(** Two runs end alike: both raise the same exception, or both return and
    the values are related by [R]. *)
Definition agree {A B : Type} (R : A -> B -> Prop) (m : result A) (m' : result B) : Prop :=
  match m, m' with
  | Ok a, Ok a' => R a a'
  | Raise e, Raise e' => e = e'
  | _, _ => False
  end.

(** ** Example files *)

(** A trace of 901 rows (0 to 15 minutes) with a second column next to
    the conductance: every row reads ":1 100". *)
Definition two_column_trace : raw_frame :=
  repeat {| col0 := ":1"; cols := [100] |} 901.

Definition two_column_frame : DataFrame :=
  {| index := RangeIndex_div60 901; values := repeat [1; 100] 901 |}.

(** A trace of one row whose first column reads ":7". *)
Definition one_row_trace : raw_frame := [{| col0 := ":7"; cols := [] |}].

Definition one_row_frame : DataFrame :=
  {| index := RangeIndex_div60 1; values := [[7]] |}.

(** A one-column trace of 901 rows (0 to 15 minutes) reading [val] in
    every row. *)
Definition flat_trace (val : string) : raw_frame :=
  repeat {| col0 := val; cols := [] |} 901.

Definition flat_frame (v : Q) : DataFrame :=
  {| index := RangeIndex_div60 901; values := repeat [v] 901 |}.

(** A one-column trace of [len] rows that reads 1 everywhere and 9 in row
    [k]. *)
Definition spike_trace (k len : nat) : raw_frame :=
  repeat {| col0 := ":1"; cols := [] |} k
  ++ {| col0 := ":9"; cols := [] |}
     :: repeat {| col0 := ":1"; cols := [] |} (len - k - 1).

(** The peak of an anion in a raw trace, read with [digits_to_numeric]. *)
Definition peak_of_trace (an : anion) (n : raw_frame) : result Q :=
  df <- housekeeping digits_to_numeric n ;; peak an df.

(** A working directory after an earlier run: four standards whose peaks
    lie on the line concentration = peak / 2, two unknowns, and a plot. *)
Definition lab_cwd : list file :=
  [ {| fname := "river.txt"; parsed := flat_trace ":7" |};
    {| fname := "std3.txt"; parsed := flat_trace ":20" |};
    {| fname := "std1.txt"; parsed := flat_trace ":5" |};
    {| fname := "std1.png"; parsed := [] |};
    {| fname := "std4.txt"; parsed := flat_trace ":40" |};
    {| fname := "blank.txt"; parsed := flat_trace ":2" |};
    {| fname := "std2.txt"; parsed := flat_trace ":10" |} ].

(** A trace that stops after 100 rows, before the first window opens. *)
Definition short_file : file :=
  {| fname := "short.txt";
     parsed := repeat {| col0 := ":3"; cols := [] |} 100 |}.

(** ** The name of the spreadsheet *)

(** [p] contains a "/". *)
Fixpoint has_sep (p : string) : bool :=
  match p with
  | EmptyString => false
  | String c p' => (c =? "/")%char || has_sep p'
  end.

(** [os.path.basename(p)]: [p[p.rfind('/') + 1:]], the text after the last
    "/" of [p], all of [p] when it has none. *)
Fixpoint basename (p : string) : string :=
  match p with
  | EmptyString => EmptyString
  | String c p' =>
      if has_sep p' then basename p'
      else if (c =? "/")%char then p' else p
  end.

(** [folder + '.xlsx'] with [folder = os.path.basename(os.getcwd())]: the
    name under which [to_excel] writes the table, from the path [getcwd] of
    the working directory. *)
Definition xlsx_name (getcwd : string) : string :=
  (basename getcwd ++ ".xlsx")%string.

(** ** More notions used to state properties *)

(** A string of [k] colons. *)
Fixpoint colons (k : nat) : string :=
  match k with
  | O => EmptyString
  | S k' => String ":" (colons k')
  end.

(** The position of the row at which the window of an anion opens: 5, 9
    and 12.5 minutes at 60 rows a minute. *)
Definition first_row (an : anion) : nat :=
  match an with
  | Cl => 300
  | NO3 => 540
  | SO4 => 750
  end.


(** The rows of [rows] whose position, counted from [s], has its time in
    [[a, b]]. *)
Fixpoint rows_from (a b : Q) (s : nat) (rows : list (list Q)) : list (list Q) :=
  match rows with
  | [] => []
  | r :: rs =>
      if inside a b (minutes s, r) then r :: rows_from a b (S s) rs
      else rows_from a b (S s) rs
  end.

(** Two traces that differ in their first row only. *)
Definition trace_from (val : string) : raw_frame :=
  {| col0 := val; cols := [] |} :: flat_trace ":5".

(** * Properties *)

(** ** The exception monad *)

Lemma bind_Ok {A B : Type} (m : result A) (k : A -> result B) (b : B) :
  bind m k = Ok b -> exists a, m = Ok a /\ k a = Ok b.
Proof. destruct m as [a|e]; simpl; [eauto | discriminate]. Qed.

Lemma bind_Raise {A B : Type} (m : result A) (k : A -> result B) (e : exn) :
  bind m k = Raise e -> m = Raise e \/ exists a, m = Ok a /\ k a = Raise e.
Proof.
  destruct m as [a|e']; simpl; intros H; [eauto | left; congruence].
Qed.

Lemma mapM_Forall2 {A B : Type} (f : A -> result B) (l : list A) (ys : list B) :
  mapM f l = Ok ys <-> Forall2 (fun x y => f x = Ok y) l ys.
Proof.
  revert ys. induction l as [|x xs IH]; intros ys; simpl.
  - split; intros H.
    + injection H as <-. constructor.
    + inversion H. reflexivity.
  - split; intros H.
    + apply bind_Ok in H as [y [Hy H]].
      apply bind_Ok in H as [ys' [Hys H]].
      injection H as <-. constructor; [exact Hy | now apply IH].
    + inversion H as [|? y ? ys' Hy Hys]; subst.
      rewrite Hy. simpl. apply IH in Hys. rewrite Hys. reflexivity.
Qed.

Lemma mapM_length {A B : Type} (f : A -> result B) (l : list A) (ys : list B) :
  mapM f l = Ok ys -> length ys = length l.
Proof.
  intros H. apply mapM_Forall2 in H. symmetry.
  induction H; simpl; congruence.
Qed.

Lemma mapM_nth_error {A B : Type} (f : A -> result B) (l : list A) (ys : list B) :
  mapM f l = Ok ys ->
  forall i x, nth_error l i = Some x ->
              exists y, nth_error ys i = Some y /\ f x = Ok y.
Proof.
  intros H. apply mapM_Forall2 in H.
  induction H as [|x0 y0 l0 ys0 Hxy _ IH]; intros i x Hi.
  - destruct i; discriminate.
  - destruct i as [|i]; simpl in *.
    + injection Hi as <-. eauto.
    + eauto.
Qed.

Lemma mapM_nth_error_inv {A B : Type} (f : A -> result B) (l : list A) (ys : list B) :
  mapM f l = Ok ys ->
  forall i y, nth_error ys i = Some y ->
              exists x, nth_error l i = Some x /\ f x = Ok y.
Proof.
  intros H. apply mapM_Forall2 in H.
  induction H as [|x0 y0 l0 ys0 Hxy _ IH]; intros i y Hi.
  - destruct i; discriminate.
  - destruct i as [|i]; simpl in *.
    + injection Hi as <-. eauto.
    + eauto.
Qed.

(** A loop raises exactly when one of its iterations does. *)
Lemma mapM_Raise {A B : Type} (f : A -> result B) (l : list A) (e : exn) :
  mapM f l = Raise e -> exists x, In x l /\ f x = Raise e.
Proof.
  induction l as [|x xs IH]; simpl; intros H; [discriminate|].
  apply bind_Raise in H as [H | [y [Hy H]]].
  - exists x. auto.
  - apply bind_Raise in H as [H | [ys [_ H]]]; [|discriminate].
    destruct (IH H) as [x' [Hin Hx']]. exists x'. auto.
Qed.

Lemma mapM_In_Raise {A B : Type} (f : A -> result B) (l : list A) (x : A) (e : exn) :
  In x l -> f x = Raise e -> exists e', mapM f l = Raise e'.
Proof.
  induction l as [|x0 xs IH]; simpl; intros Hin Hx; [contradiction|].
  destruct (f x0) as [y0|e0] eqn:E0; simpl; [|eauto].
  destruct Hin as [-> | Hin]; [congruence|].
  destruct (IH Hin Hx) as [e' ->]. simpl. eauto.
Qed.

(** When a loop does not raise, its list is the image of the input. *)
Lemma mapM_Ok_map {A B : Type} (d : B) (f : A -> result B) (l : list A) (ys : list B) :
  mapM f l = Ok ys -> ys = map (fun x => get_or d (f x)) l.
Proof.
  intros H. apply mapM_Forall2 in H.
  induction H as [|x y l0 ys0 Hxy _ IH]; simpl; [reflexivity|].
  rewrite Hxy. simpl. now f_equal.
Qed.

Lemma mapM_all_Ok {A B : Type} (f : A -> result B) (l : list A) :
  (forall x, In x l -> exists y, f x = Ok y) -> exists ys, mapM f l = Ok ys.
Proof.
  induction l as [|x xs IH]; simpl; intros H; [eauto|].
  destruct (H x (or_introl eq_refl)) as [y ->]. simpl.
  destruct IH as [ys ->]; [intros; apply H; auto|]. simpl. eauto.
Qed.

(** ** Order on the rationals *)

Lemma Qltb_lt (x y : Q) : Qltb x y = true <-> x < y.
Proof.
  unfold Qltb. rewrite negb_true_iff. split; intros H.
  - apply Qnot_le_lt. intros Hle. apply Qle_bool_iff in Hle. congruence.
  - destruct (Qle_bool y x) eqn:E; [|reflexivity].
    apply Qle_bool_iff in E. exfalso. exact (Qlt_not_le _ _ H E).
Qed.

Lemma Qltb_ge (x y : Q) : Qltb x y = false <-> y <= x.
Proof.
  unfold Qltb. rewrite negb_false_iff. apply Qle_bool_iff.
Qed.

Lemma Qle_bool_gt (x y : Q) : Qle_bool x y = false <-> y < x.
Proof.
  rewrite <- Qltb_lt. unfold Qltb. now rewrite negb_true_iff.
Qed.

Lemma minutes_lt (j k : nat) : (j < k)%nat -> minutes j < minutes k.
Proof.
  intros H. unfold minutes, Qdiv.
  apply Qmult_lt_compat_r; [reflexivity|].
  rewrite <- Zlt_Qlt. lia.
Qed.

Lemma minutes_le (j k : nat) : (j <= k)%nat -> minutes j <= minutes k.
Proof.
  intros H. unfold minutes, Qdiv.
  apply Qmult_le_compat_r; [|discriminate].
  rewrite <- Zle_Qle. lia.
Qed.

(** ** Label slices on an increasing index *)

Lemma filter_none {A : Type} (f : A -> bool) (l : list A) :
  (forall x, In x l -> f x = false) -> filter f l = [].
Proof.
  induction l as [|x xs IH]; simpl; intros H; [reflexivity|].
  rewrite (H x (or_introl eq_refl)). apply IH. intros; apply H; auto.
Qed.

Lemma inside_above (a b : Q) (idx : list Q) (rows : list (list Q)) :
  Forall (fun t => b < t) idx -> filter (inside a b) (combine idx rows) = [].
Proof.
  intros H. apply filter_none. intros [t r] Hin.
  apply in_combine_l in Hin. rewrite Forall_forall in H.
  unfold inside; simpl. apply andb_false_iff. right.
  apply Qle_bool_gt. now apply H.
Qed.

Lemma inside_crossed (a b : Q) (l : list (Q * list Q)) :
  b < a -> filter (inside a b) l = [].
Proof.
  intros Hba. apply filter_none. intros [t r] _. unfold inside; simpl.
  destruct (Qle_bool a t) eqn:Ea; [|reflexivity]. simpl.
  apply Qle_bool_gt. apply Qle_bool_iff in Ea.
  eapply Qlt_le_trans; eassumption.
Qed.

Lemma slice_cons_S {A : Type} (s e : nat) (x : A) (l : list A) :
  slice (S s) (S e) (x :: l) = slice s e l.
Proof. reflexivity. Qed.

(** Past the left end of the window: the slice is the prefix of labels that
    do not exceed [b]. *)
Lemma firstn_searchsorted_right (a b : Q) (idx : list Q) (rows : list (list Q)) :
  StronglySorted Qle idx -> Forall (fun t => a <= t) idx ->
  firstn (searchsorted_right idx b) rows
  = map snd (filter (inside a b) (combine idx rows)).
Proof.
  intros Hs. revert rows.
  induction Hs as [|t idx Hs IH Hall]; intros rows Ha; [reflexivity|].
  inversion Ha as [|? ? Hat Ha']; subst.
  destruct rows as [|r rows]; simpl.
  { now destruct (Qle_bool t b). }
  unfold inside at 1; simpl.
  apply Qle_bool_iff in Hat. rewrite Hat. simpl.
  destruct (Qle_bool t b) eqn:Eb; simpl.
  - f_equal. now apply IH.
  - rewrite inside_above; [reflexivity|].
    apply Qle_bool_gt in Eb. rewrite Forall_forall in *.
    intros t' Ht'. eapply Qlt_le_trans; [exact Eb | now apply Hall].
Qed.

(** On an increasing index the positional slice taken by [loc] holds
    exactly the rows whose label lies in [[a, b]]. *)
Lemma slice_searchsorted (a b : Q) (idx : list Q) (rows : list (list Q)) :
  StronglySorted Qle idx ->
  slice (searchsorted_left idx a) (searchsorted_right idx b) rows
  = map snd (filter (inside a b) (combine idx rows)).
Proof.
  intros Hs. revert rows.
  induction Hs as [|t idx Hs IH Hall]; intros rows.
  { simpl. unfold slice. now destruct rows. }
  destruct rows as [|r rows].
  { unfold slice. rewrite skipn_nil, firstn_nil. reflexivity. }
  simpl. unfold inside at 1; simpl.
  destruct (Qltb t a) eqn:Ea.
  - assert (Qle_bool a t = false) as ->.
    { apply Qle_bool_gt. now apply Qltb_lt. }
    simpl. destruct (Qle_bool t b) eqn:Eb.
    + rewrite slice_cons_S. apply IH.
    + rewrite inside_crossed; [reflexivity|].
      apply Qle_bool_gt in Eb. apply Qltb_lt in Ea.
      eapply Qlt_trans; eassumption.
  - apply Qltb_ge in Ea.
    assert (Qle_bool a t = true) as -> by now apply Qle_bool_iff.
    simpl. destruct (Qle_bool t b) eqn:Eb.
    + unfold slice. simpl. f_equal.
      apply firstn_searchsorted_right; [exact Hs|].
      rewrite Forall_forall in *. intros t' Ht'.
      eapply Qle_trans; [exact Ea | now apply Hall].
    + rewrite inside_above; [reflexivity|].
      apply Qle_bool_gt in Eb. rewrite Forall_forall in *.
      intros t' Ht'. eapply Qlt_le_trans; [exact Eb | now apply Hall].
Qed.

Lemma RangeIndex_sorted (s len : nat) :
  StronglySorted Qle (map minutes (seq s len)).
Proof.
  revert s. induction len as [|len IH]; intros s; simpl; constructor.
  - apply IH.
  - rewrite Forall_forall. intros t Ht.
    apply in_map_iff in Ht as [k [<- Hk]]. apply in_seq in Hk.
    apply minutes_le. lia.
Qed.

(** [loc] agrees with the window contract on every frame whose index is the
    default index divided by 60. *)
Lemma loc_rows_between (a b : Q) (df : DataFrame) (len : nat) :
  index df = RangeIndex_div60 len -> loc a b df = rows_between a b df.
Proof.
  intros Hidx. unfold loc, rows_between. rewrite Hidx.
  apply slice_searchsorted. apply RangeIndex_sorted.
Qed.

Lemma nth_error_combine {A B : Type} (l : list A) (l' : list B) (k : nat) (x : A) (y : B) :
  nth_error (combine l l') k = Some (x, y)
  <-> nth_error l k = Some x /\ nth_error l' k = Some y.
Proof.
  revert l' k. induction l as [|x0 l IH]; intros l' k.
  - simpl. split; [destruct k; discriminate | intros [H _]; destruct k; discriminate].
  - destruct l' as [|y0 l']; simpl.
    + split; [destruct k; discriminate | intros [_ H]; destruct k; discriminate].
    + destruct k as [|k]; simpl.
      * split; [intros H; injection H as <- <-; auto|].
        intros [H1 H2]. congruence.
      * apply IH.
Qed.

Lemma nth_error_RangeIndex (len k : nat) (t : Q) :
  nth_error (RangeIndex_div60 len) k = Some t <-> (k < len)%nat /\ t = minutes k.
Proof.
  unfold RangeIndex_div60. rewrite nth_error_map.
  destruct (nth_error (seq 0 len) k) as [k'|] eqn:E; simpl.
  - assert (Hlt : (k < len)%nat).
    { rewrite <- (length_seq len 0). apply nth_error_Some. congruence. }
    rewrite (nth_error_nth' _ 0%nat) in E by now rewrite length_seq.
    rewrite seq_nth in E by exact Hlt. injection E as <-. simpl.
    split; [intros H; injection H as <-; auto | intros [_ ->]; reflexivity].
  - split; [discriminate|]. intros [Hlt _].
    apply nth_error_None in E. rewrite length_seq in E. lia.
Qed.

(** Membership in the window slice, row by row. *)
Lemma In_rows_between (a b : Q) (df : DataFrame) (row : list Q) :
  index df = RangeIndex_div60 (length (values df)) ->
  In row (rows_between a b df)
  <-> exists k, nth_error (values df) k = Some row /\ in_window a b k.
Proof.
  intros Hidx. unfold rows_between. rewrite in_map_iff. split.
  - intros [[t r] [Hr Hin]]. simpl in Hr. subst r.
    apply filter_In in Hin as [Hin Hw].
    apply In_nth_error in Hin as [k Hk].
    apply nth_error_combine in Hk as [Ht Hrow].
    rewrite Hidx in Ht. apply nth_error_RangeIndex in Ht as [_ ->].
    exists k. split; [exact Hrow|].
    unfold inside in Hw; simpl in Hw. apply andb_true_iff in Hw as [H1 H2].
    split; now apply Qle_bool_iff.
  - intros [k [Hrow [H1 H2]]]. exists (minutes k, row). split; [reflexivity|].
    apply filter_In. split.
    + apply (nth_error_In _ k). apply nth_error_combine. split; [|exact Hrow].
      rewrite Hidx. apply nth_error_RangeIndex. split; [|reflexivity].
      apply nth_error_Some. congruence.
    + unfold inside; simpl. apply andb_true_iff.
      split; now apply Qle_bool_iff.
Qed.

(** ** [np.max] *)

Lemma fold_max_spec (xs : list Q) (x : Q) :
  let m := fold_left (fun m y => if Qltb m y then y else m) xs x in
  In m (x :: xs) /\ forall y, In y (x :: xs) -> y <= m.
Proof.
  revert x. induction xs as [|z xs IH]; intros x; simpl.
  - split; [auto|]. intros y [<-|[]]. apply Qle_refl.
  - destruct (Qltb x z) eqn:E.
    + destruct (IH z) as [Hin Hmax]. simpl in Hin, Hmax. split.
      * destruct Hin as [<-|Hin]; auto.
      * intros y [<-|[<-|Hy]].
        -- apply Qltb_lt in E. apply Qlt_le_weak.
           eapply Qlt_le_trans; [exact E | apply Hmax; auto].
        -- apply Hmax; auto.
        -- apply Hmax; auto.
    + destruct (IH x) as [Hin Hmax]. simpl in Hin, Hmax. split.
      * destruct Hin as [<-|Hin]; auto.
      * intros y [<-|[<-|Hy]].
        -- apply Hmax; auto.
        -- apply Qltb_ge in E.
           eapply Qle_trans; [exact E | apply Hmax; auto].
        -- apply Hmax; auto.
Qed.

Lemma np_max_Ok (arr : list Q) (m : Q) :
  np_max arr = Ok m -> In m arr /\ forall y, In y arr -> y <= m.
Proof.
  destruct arr as [|x xs]; simpl; [discriminate|].
  intros H. injection H as <-. apply (fold_max_spec xs x).
Qed.

Lemma np_max_nonempty (arr : list Q) (x : Q) :
  In x arr -> exists m, np_max arr = Ok m.
Proof. destruct arr; simpl; [contradiction | eauto]. Qed.

Lemma np_max_Raise (arr : list Q) (e : exn) :
  np_max arr = Raise e -> arr = [] /\ e = ValueError_zero_size.
Proof.
  destruct arr; simpl; [|discriminate].
  intros H. injection H as <-. auto.
Qed.

(** ** Housekeeping and peak extraction *)

Section PeakFacts.

Variable to_numeric : string -> option Q.

Lemma housekeeping_inv (n : raw_frame) (df : DataFrame) :
  housekeeping to_numeric n = Ok df ->
  index df = RangeIndex_div60 (length n) /\
  length (values df) = length n /\
  forall k r, nth_error n k = Some r ->
              exists v, to_numeric (lstrip_colon (col0 r)) = Some v /\
                        nth_error (values df) k = Some (v :: cols r).
Proof.
  unfold housekeeping. intros H.
  apply bind_Ok in H as [rows [Hrows H]]. injection H as <-. simpl.
  split; [reflexivity|]. split; [eapply mapM_length; eassumption|].
  intros k r Hk.
  destruct (mapM_nth_error _ _ _ Hrows k r Hk) as [row [Hrow Hf]].
  destruct (to_numeric (lstrip_colon (col0 r))) as [v|]; simpl in Hf;
    [|discriminate].
  injection Hf as <-. eauto.
Qed.

Lemma housekeeping_row_inv (n : raw_frame) (df : DataFrame) (k : nat) (row : list Q) :
  housekeeping to_numeric n = Ok df ->
  nth_error (values df) k = Some row ->
  exists r v, nth_error n k = Some r /\
              to_numeric (lstrip_colon (col0 r)) = Some v /\
              row = v :: cols r.
Proof.
  intros H Hrow. destruct (housekeeping_inv _ _ H) as [_ [Hlen Hrows]].
  destruct (nth_error n k) as [r|] eqn:Hk.
  - destruct (Hrows k r Hk) as [v [Hv Hrow']]. exists r, v.
    repeat split; congruence.
  - apply nth_error_None in Hk.
    assert (nth_error (values df) k <> None) as Hne by congruence.
    apply nth_error_Some in Hne. lia.
Qed.

Lemma housekept_index (n : raw_frame) (df : DataFrame) :
  housekeeping to_numeric n = Ok df ->
  index df = RangeIndex_div60 (length (values df)).
Proof.
  intros H. destruct (housekeeping_inv _ _ H) as [Hi [Hl _]]. congruence.
Qed.

Lemma peak_unfold (an : anion) (a b : Q) (df : DataFrame) :
  window an = (a, b) -> peak an df = np_max (np_asarray (loc a b df)).
Proof. unfold peak. now intros ->. Qed.

(** The values over which [peak] takes its maximum are the values of the
    rows inside the window. *)
Lemma In_window_array (n : raw_frame) (df : DataFrame) (a b x : Q) :
  housekeeping to_numeric n = Ok df ->
  In x (np_asarray (loc a b df)) <-> window_cell a b df x.
Proof.
  intros H. pose proof (housekept_index _ _ H) as Hidx.
  rewrite (loc_rows_between a b df _ Hidx).
  unfold np_asarray. rewrite in_concat. split.
  - intros [row [Hrow Hx]].
    apply (In_rows_between a b df row Hidx) in Hrow as [k [Hk Hw]].
    apply In_nth_error in Hx as [j Hj]. exists j, k, row. auto.
  - intros [j [k [row [Hk [Hw Hj]]]]]. exists row. split.
    + apply (In_rows_between a b df row Hidx). eauto.
    + eapply nth_error_In; eassumption.
Qed.

Lemma peak_greatest (n : raw_frame) (df : DataFrame) (an : anion) (a b m : Q) :
  housekeeping to_numeric n = Ok df -> window an = (a, b) ->
  peak an df = Ok m -> greatest (window_cell a b df) m.
Proof.
  intros H Hw Hp. rewrite (peak_unfold an a b df Hw) in Hp.
  apply np_max_Ok in Hp as [Hin Hmax]. split.
  - now apply (In_window_array n df a b m H).
  - intros x Hx. apply Hmax. now apply (In_window_array n df a b x H).
Qed.

Lemma peak_defined (n : raw_frame) (df : DataFrame) (an : anion) (a b x : Q) :
  housekeeping to_numeric n = Ok df -> window an = (a, b) ->
  window_cell a b df x -> exists m, peak an df = Ok m.
Proof.
  intros H Hw Hx. rewrite (peak_unfold an a b df Hw).
  apply (np_max_nonempty _ x). now apply (In_window_array n df a b x H).
Qed.

(** In a trace whose only column is the conductance, every value of a
    row is the value of that column. *)
Lemma one_column_cell (n : raw_frame) (df : DataFrame) (a b x : Q) :
  housekeeping to_numeric n = Ok df ->
  (forall r, In r n -> cols r = []) ->
  window_cell a b df x -> window_SpCond a b df x.
Proof.
  intros H Hone [j [k [row [Hk [Hw Hj]]]]].
  destruct (housekeeping_row_inv n df k row H Hk) as [r [v [Hr [_ ->]]]].
  rewrite (Hone r (nth_error_In _ _ Hr)) in *.
  destruct j as [|[|j]]; simpl in Hj; try discriminate.
  exists k, [v]. auto.
Qed.

Lemma empty_window_array (n : raw_frame) (df : DataFrame) (a b : Q) :
  housekeeping to_numeric n = Ok df ->
  (forall k, (k < length n)%nat -> ~ in_window a b k) ->
  np_asarray (loc a b df) = [].
Proof.
  intros H Hempty.
  destruct (np_asarray (loc a b df)) as [|x xs] eqn:E; [reflexivity|].
  exfalso.
  assert (Hx : In x (np_asarray (loc a b df))) by (rewrite E; simpl; auto).
  apply (In_window_array n df a b x H) in Hx as [j [k [row [Hk [Hw _]]]]].
  apply (Hempty k); [|exact Hw].
  destruct (housekeeping_inv _ _ H) as [_ [Hlen _]]. rewrite <- Hlen.
  apply nth_error_Some. congruence.
Qed.

Lemma peak_empty_window (n : raw_frame) (df : DataFrame) (an : anion) (a b : Q) :
  housekeeping to_numeric n = Ok df -> window an = (a, b) ->
  (forall k, (k < length n)%nat -> ~ in_window a b k) ->
  peak an df = Raise ValueError_zero_size.
Proof.
  intros H Hw Hempty. rewrite (peak_unfold an a b df Hw).
  now rewrite (empty_window_array n df a b H Hempty).
Qed.

Lemma peak_only_zero_size (an : anion) (df : DataFrame) (e : exn) :
  peak an df = Raise e -> e = ValueError_zero_size.
Proof.
  unfold peak. destruct (window an) as [a b]. intros H.
  now apply np_max_Raise in H.
Qed.

Lemma peaks_only_zero_size (df : DataFrame) (e : exn) :
  peaks df = Raise e -> e = ValueError_zero_size.
Proof.
  unfold peaks. intros H.
  repeat (apply bind_Raise in H as [H | [? [_ H]]];
          [now apply peak_only_zero_size in H|]).
  discriminate.
Qed.

Lemma peaks_Raise (an : anion) (df : DataFrame) (e : exn) :
  peak an df = Raise e -> peaks df = Raise ValueError_zero_size.
Proof.
  intros H. destruct (peaks df) as [pk|e'] eqn:E.
  - exfalso. unfold peaks in E.
    apply bind_Ok in E as [c [Hc E]].
    apply bind_Ok in E as [x [Hx E]].
    apply bind_Ok in E as [s [Hs _]].
    destruct an; congruence.
  - f_equal. now apply peaks_only_zero_size in E.
Qed.

Lemma peaks_Ok (df : DataFrame) (pk : Q * Q * Q) :
  peaks df = Ok pk <->
  peak Cl df = Ok (fst3 pk) /\ peak NO3 df = Ok (snd3 pk) /\
  peak SO4 df = Ok (thd3 pk).
Proof.
  unfold peaks. split.
  - intros E.
    apply bind_Ok in E as [c [Hc E]].
    apply bind_Ok in E as [x [Hx E]].
    apply bind_Ok in E as [s [Hs E]].
    injection E as <-. auto.
  - destruct pk as [[c x] s]. unfold fst3, snd3, thd3; simpl.
    intros [-> [-> ->]]. reflexivity.
Qed.

(** C1 (as amended). For every trace and every elution window [[a, b]] (Cl
  [5, 7], NO3 [9, 11], SO4 [12.5, 15]), the extracted peak is [np.max]
  over exactly the rows whose time [t] satisfies [a <= t <= b]: it is the
  greatest of the values held by those rows in any of their columns, both
  boundary times included and no outside row contributing; a peak exists
  as soon as one row lies in the window; and when the conductance is the
  only column, the peak is the greatest conductance in the window. *)
Theorem peak_is_window_maximum
    (n : raw_frame) (df : DataFrame) (an : anion) (a b : Q) :
  housekeeping to_numeric n = Ok df -> window an = (a, b) ->
  peak an df = np_max (np_asarray (rows_between a b df)) /\
  (forall m, peak an df = Ok m -> greatest (window_cell a b df) m) /\
  ((exists x, window_cell a b df x) -> exists m, peak an df = Ok m) /\
  ((forall r, In r n -> cols r = []) ->
   forall m, peak an df = Ok m -> greatest (window_SpCond a b df) m).
Proof.
  intros H Hw. split; [|split; [|split]].
  - rewrite (peak_unfold an a b df Hw).
    now rewrite (loc_rows_between a b df _ (housekept_index n df H)).
  - intros m. now apply peak_greatest with (n := n).
  - intros [x Hx]. now apply peak_defined with (n := n) (a := a) (b := b) (x := x).
  - intros Hone m Hp.
    destruct (peak_greatest n df an a b m H Hw Hp) as [Hin Hmax]. split.
    + now apply one_column_cell with (n := n).
    + intros x Hx. apply Hmax. now exists 0%nat.
Qed.

(** C4 (as amended). The time of row [k] of an ingested series is its
  position [k] in the frame (0 for the first row) divided by 60, whatever
  the file's first column holds; the first column, stripped of its
  colons, becomes the first value of the row. *)
Theorem time_is_row_position_over_60 (n : raw_frame) (df : DataFrame) :
  housekeeping to_numeric n = Ok df ->
  index df = map (fun k => inject_Z (Z.of_nat k) / 60) (seq 0 (length n)) /\
  forall k r, nth_error n k = Some r ->
    nth_error (index df) k = Some (inject_Z (Z.of_nat k) / 60) /\
    exists v, to_numeric (lstrip_colon (col0 r)) = Some v /\
              nth_error (values df) k = Some (v :: cols r).
Proof.
  intros H. destruct (housekeeping_inv n df H) as [Hidx [_ Hrows]].
  split; [exact Hidx|]. intros k r Hk. split; [|now apply Hrows].
  rewrite Hidx. apply nth_error_RangeIndex. split; [|reflexivity].
  apply nth_error_Some. congruence.
Qed.

(** C5. The peak of a window is taken jointly over all columns of the
  frame: it is a value of some column in the window and bounds every
  value of every column there; the first column, stripped of its colons,
  is column 0 of that maximum and the file's other columns follow it; a
  value of any column that bounds the window is the peak; with one column
  the peak is a value of that column. *)
Theorem peak_is_joint_over_columns
    (n : raw_frame) (df : DataFrame) (an : anion) (a b : Q) :
  housekeeping to_numeric n = Ok df -> window an = (a, b) ->
  (forall m, peak an df = Ok m ->
     (exists j, window_column a b df j m) /\
     (forall j x, window_column a b df j x -> x <= m)) /\
  (forall k r, nth_error n k = Some r -> in_window a b k ->
     (exists v, to_numeric (lstrip_colon (col0 r)) = Some v /\
                window_column a b df 0 v) /\
     (forall j x, nth_error (cols r) j = Some x ->
                  window_column a b df (S j) x)) /\
  (forall j x, window_column a b df j x ->
     (forall y, window_cell a b df y -> y <= x) ->
     exists m, peak an df = Ok m /\ m == x) /\
  ((forall r, In r n -> cols r = []) ->
   forall m, peak an df = Ok m -> window_column a b df 0 m).
Proof.
  intros H Hw. split; [|split; [|split]].
  - intros m Hp.
    destruct (peak_greatest n df an a b m H Hw Hp) as [Hin Hmax].
    split; [exact Hin|]. intros j x Hx. apply Hmax. now exists j.
  - intros k r Hk Hin.
    destruct (housekeeping_inv n df H) as [_ [_ Hrows]].
    destruct (Hrows k r Hk) as [v [Hv Hrow]]. split.
    + exists v. split; [exact Hv|]. exists k, (v :: cols r). auto.
    + intros j x Hj. exists k, (v :: cols r). auto.
  - intros j x Hx Hbound.
    destruct (peak_defined n df an a b x H Hw) as [m Hp]; [now exists j|].
    exists m. split; [exact Hp|].
    destruct (peak_greatest n df an a b m H Hw Hp) as [Hin Hmax].
    apply Qle_antisym; [now apply Hbound | apply Hmax; now exists j].
  - intros Hone m Hp.
    destruct (peak_greatest n df an a b m H Hw Hp) as [Hin _].
    now apply (one_column_cell n df a b m H Hone).
Qed.

End PeakFacts.

(** ** Least squares through four points *)

Lemma four_squares_zero (u1 u2 u3 u4 : Q) :
  u1 * u1 + (u2 * u2 + (u3 * u3 + (u4 * u4 + 0))) == 0 ->
  u1 == 0 /\ u2 == 0 /\ u3 == 0 /\ u4 == 0.
Proof. intros H. repeat split; nra. Qed.

Lemma six_squares_zero (u1 u2 u3 u4 u5 u6 : Q) :
  u1 * u1 + u2 * u2 + u3 * u3 + u4 * u4 + u5 * u5 + u6 * u6 == 0 ->
  u1 == 0 /\ u4 == 0 /\ u6 == 0.
Proof. intros H. repeat split; nra. Qed.

Section FourPoints.

Variables x1 x2 x3 x4 y1 y2 y3 y4 : Q.

Local Abbreviation X := [x1; x2; x3; x4].
Local Abbreviation Y := [y1; y2; y3; y4].

(** The residual of the fitted line at a point. *)
Local Abbreviation res x y := (y - predict (fit X Y) x).

(** The fitted line satisfies the two normal equations of least squares:
    the residuals sum to 0 and are orthogonal to the [x] values. *)
Lemma fit_normal_equations :
  res x1 y1 + res x2 y2 + res x3 y3 + res x4 y4 == 0 /\
  res x1 y1 * x1 + res x2 y2 * x2 + res x3 y3 * x3 + res x4 y4 * x4 == 0.
Proof.
  unfold predict, fit.
  cbn [coef_ intercept_ map combine fst snd].
  set (xm := Qmean [x1; x2; x3; x4]). set (ym := Qmean [y1; y2; y3; y4]).
  assert (Hxm : 4 * xm == x1 + x2 + x3 + x4).
  { unfold xm, Qmean, Qsum. cbn [fold_right List.length].
    change (inject_Z (Z.of_nat 4)) with 4. field. }
  assert (Hym : 4 * ym == y1 + y2 + y3 + y4).
  { unfold ym, Qmean, Qsum. cbn [fold_right List.length].
    change (inject_Z (Z.of_nat 4)) with 4. field. }
  clearbody xm ym. unfold Qsum. cbn [fold_right].
  match goal with |- context [Qeq_bool ?s 0] => set (sxx := s) end.
  match goal with |- context [?s / sxx] => set (sxy := s) end.
  set (k := if Qeq_bool sxx 0 then 0 else sxy / sxx).
  assert (Hk : k * sxx == sxy).
  { unfold k. destruct (Qeq_bool sxx 0) eqn:E.
    - apply Qeq_bool_eq in E. rewrite E.
      apply four_squares_zero in E as (E1 & E2 & E3 & E4).
      unfold sxy. rewrite E1, E2, E3, E4. ring.
    - apply Qeq_bool_neq in E. field. exact E. }
  clearbody k. unfold sxx, sxy in Hk. clear sxx sxy.
  split.
  - assert (E : y1 - (k * x1 + (ym - xm * k)) + (y2 - (k * x2 + (ym - xm * k)))
                + (y3 - (k * x3 + (ym - xm * k))) + (y4 - (k * x4 + (ym - xm * k)))
                == (x1 + x2 + x3 + x4 - 4 * xm) * - k
                   + (y1 + y2 + y3 + y4 - 4 * ym)) by ring.
    rewrite E, Hxm, Hym. ring.
  - assert (E : (y1 - (k * x1 + (ym - xm * k))) * x1
                + (y2 - (k * x2 + (ym - xm * k))) * x2
                + (y3 - (k * x3 + (ym - xm * k))) * x3
                + (y4 - (k * x4 + (ym - xm * k))) * x4
                == ((x1 - xm) * (y1 - ym)
                    + ((x2 - xm) * (y2 - ym)
                       + ((x3 - xm) * (y3 - ym) + ((x4 - xm) * (y4 - ym) + 0))))
                   - k * ((x1 - xm) * (x1 - xm)
                          + ((x2 - xm) * (x2 - xm)
                             + ((x3 - xm) * (x3 - xm) + ((x4 - xm) * (x4 - xm) + 0))))
                   + xm * (y1 + y2 + y3 + y4 - 4 * ym)
                   - k * xm * (x1 + x2 + x3 + x4 - 4 * xm)) by ring.
    rewrite E, Hk, Hxm, Hym. ring.
Qed.

(** No line has a smaller sum of squared residuals on the four points. *)
Lemma fit_least_squares (a b : Q) :
  sq_residuals (coef_ (fit X Y)) (intercept_ (fit X Y)) X Y
  <= sq_residuals a b X Y.
Proof.
  destruct fit_normal_equations as [N1 N2]. unfold predict in N1, N2.
  set (k := coef_ (fit X Y)) in *. set (c := intercept_ (fit X Y)) in *.
  clearbody k c. unfold sq_residuals, Qsum.
  cbn [map combine fold_right fst snd].
  set (d1 := (k - a) * x1 + (c - b)). set (d2 := (k - a) * x2 + (c - b)).
  set (d3 := (k - a) * x3 + (c - b)). set (d4 := (k - a) * x4 + (c - b)).
  assert (E : (y1 - (a * x1 + b)) * (y1 - (a * x1 + b))
              + ((y2 - (a * x2 + b)) * (y2 - (a * x2 + b))
                 + ((y3 - (a * x3 + b)) * (y3 - (a * x3 + b))
                    + ((y4 - (a * x4 + b)) * (y4 - (a * x4 + b)) + 0)))
              == (y1 - (k * x1 + c)) * (y1 - (k * x1 + c))
                 + ((y2 - (k * x2 + c)) * (y2 - (k * x2 + c))
                    + ((y3 - (k * x3 + c)) * (y3 - (k * x3 + c))
                       + ((y4 - (k * x4 + c)) * (y4 - (k * x4 + c)) + 0)))
                 + (d1 * d1 + d2 * d2 + d3 * d3 + d4 * d4)
                 + 2 * (k - a) * ((y1 - (k * x1 + c)) * x1 + (y2 - (k * x2 + c)) * x2
                                  + (y3 - (k * x3 + c)) * x3 + (y4 - (k * x4 + c)) * x4)
                 + 2 * (c - b) * ((y1 - (k * x1 + c)) + (y2 - (k * x2 + c))
                                  + (y3 - (k * x3 + c)) + (y4 - (k * x4 + c)))).
  { unfold d1, d2, d3, d4. ring. }
  rewrite E, N1, N2.
  assert (0 <= d1 * d1 + d2 * d2 + d3 * d3 + d4 * d4) by nra.
  lra.
Qed.

(** When the four points lie on the line [y = a x + b] and the [x] values
    are not all equal, the fit returns that line. *)
Lemma fit_collinear (a b : Q) :
  y1 == a * x1 + b -> y2 == a * x2 + b ->
  y3 == a * x3 + b -> y4 == a * x4 + b ->
  ~ (x1 == x2 /\ x2 == x3 /\ x3 == x4) ->
  coef_ (fit X Y) == a /\ intercept_ (fit X Y) == b.
Proof.
  intros H1 H2 H3 H4 Hne.
  destruct fit_normal_equations as [N1 N2]. unfold predict in N1, N2.
  set (k := coef_ (fit X Y)) in *. set (c := intercept_ (fit X Y)) in *.
  clearbody k c. rewrite H1, H2, H3, H4 in N1, N2.
  set (u := a - k) in *. set (v := b - c) in *.
  assert (M1 : u * (x1 + x2 + x3 + x4) + 4 * v == 0).
  { rewrite <- N1. unfold u, v. ring. }
  assert (M2 : u * (x1 * x1 + x2 * x2 + x3 * x3 + x4 * x4)
               + v * (x1 + x2 + x3 + x4) == 0).
  { rewrite <- N2. unfold u, v. ring. }
  assert (M3 : u * ((x1 - x2) * (x1 - x2) + (x1 - x3) * (x1 - x3)
                    + (x1 - x4) * (x1 - x4) + (x2 - x3) * (x2 - x3)
                    + (x2 - x4) * (x2 - x4) + (x3 - x4) * (x3 - x4)) == 0).
  { assert (E : u * ((x1 - x2) * (x1 - x2) + (x1 - x3) * (x1 - x3)
                    + (x1 - x4) * (x1 - x4) + (x2 - x3) * (x2 - x3)
                    + (x2 - x4) * (x2 - x4) + (x3 - x4) * (x3 - x4))
                == 4 * (u * (x1 * x1 + x2 * x2 + x3 * x3 + x4 * x4)
                        + v * (x1 + x2 + x3 + x4))
                   - (x1 + x2 + x3 + x4) * (u * (x1 + x2 + x3 + x4) + 4 * v))
      by ring.
    rewrite E, M1, M2. ring. }
  assert (Hu : u == 0).
  { apply Qmult_integral in M3 as [Hu | Hs]; [exact Hu|].
    exfalso. apply Hne.
    apply six_squares_zero in Hs as (Z1 & Z2 & Z3).
    repeat split; lra. }
  assert (Hv : v == 0).
  { rewrite Hu in M1. lra. }
  unfold u, v in *. split; lra.
Qed.

End FourPoints.

(** With the known concentrations on the [y] side, points on a line have
    peaks that are not all equal. *)
Lemma stds_known_collinear_distinct (a b x1 x2 x3 x4 : Q) :
  2.5 == a * x1 + b -> 5 == a * x2 + b -> ~ (x1 == x2 /\ x2 == x3 /\ x3 == x4).
Proof. intros H1 H2 [E _]. rewrite E in H1. lra. Qed.

(** ** File names and sample names *)

Lemma endswith_append (ext s : string) :
  endswith ext s = true -> exists p, s = (p ++ ext)%string.
Proof.
  induction s as [|c s IH]; cbn [endswith]; intros H.
  - apply orb_true_iff in H as [H | H]; [|discriminate].
    apply String.eqb_eq in H. subst ext. now exists ""%string.
  - apply orb_true_iff in H as [H | H].
    + apply String.eqb_eq in H. subst ext. now exists ""%string.
    + destruct (IH H) as [p ->]. now exists (String c p).
Qed.

Lemma drop_ext_txt (p : string) : drop_ext (p ++ ".txt") = Some p.
Proof.
  induction p as [|c p IH]; [reflexivity|].
  simpl. simpl in IH. now rewrite IH.
Qed.

(** The sample name of a file that [glob] returns for "*.txt" is its name
    without the ".txt". *)
Lemma splitext_root_txt (p : string) :
  ishidden (p ++ ".txt") = false -> splitext_root (p ++ ".txt") = p.
Proof.
  destruct p as [|c p]; [discriminate|].
  simpl. intros ->. pose proof (drop_ext_txt p) as H. simpl in H.
  now rewrite H.
Qed.

Lemma glob_star_name (cwd : list file) (f : file) :
  In f (glob_star ".txt" cwd) ->
  In f cwd /\ fname f = (splitext_root (fname f) ++ ".txt")%string.
Proof.
  unfold glob_star. intros H. apply filter_In in H as [Hin H].
  apply andb_true_iff in H as [Hh He]. apply negb_true_iff in Hh.
  split; [exact Hin|].
  apply endswith_append in He as [p Hp]. rewrite Hp in Hh |- *.
  now rewrite splitext_root_txt.
Qed.

Lemma NoDup_map_compose {A B C : Type} (f : A -> B) (g : A -> C) (l : list A) :
  (forall x y, In x l -> In y l -> g x = g y -> f x = f y) ->
  NoDup (map f l) -> NoDup (map g l).
Proof.
  induction l as [|x l IH]; simpl; intros Hfg Hnd; [constructor|].
  inversion Hnd as [|? ? Hx Hnd']; subst. constructor.
  - intros Hin. apply Hx. apply in_map_iff in Hin as [y [Hy Hin]].
    apply in_map_iff. exists y. split; [|exact Hin].
    symmetry. apply Hfg; auto.
  - apply IH; auto.
Qed.

Lemma NoDup_map_filter {A B : Type} (g : A -> B) (f : A -> bool) (l : list A) :
  NoDup (map g l) -> NoDup (map g (filter f l)).
Proof.
  induction l as [|x l IH]; simpl; intros Hnd; [constructor|].
  inversion Hnd as [|? ? Hx Hnd']; subst.
  destruct (f x); simpl; [|now apply IH]. constructor; [|now apply IH].
  intros Hin. apply Hx. apply in_map_iff in Hin as [y [Hy Hin]].
  apply filter_In in Hin as [Hin _]. apply in_map_iff. eauto.
Qed.

(** Distinct file names give distinct sample names. *)
Lemma samples_NoDup (cwd : list file) :
  NoDup (map fname cwd) ->
  NoDup (snd (OutputList ".txt" cwd)).
Proof.
  intros Hnd. unfold OutputList. simpl.
  apply (NoDup_map_compose fname).
  - intros x y Hx Hy E.
    apply glob_star_name in Hx as [_ Hx]. apply glob_star_name in Hy as [_ Hy].
    rewrite Hx, Hy. now rewrite E.
  - now apply NoDup_map_filter.
Qed.

(** ** The order of the labels *)

Lemma string_leb_iff (s1 s2 : string) :
  String.leb s1 s2 = true <-> s1 = s2 \/ String_as_OT.lt s1 s2.
Proof.
  unfold String.leb. destruct (String.compare s1 s2) eqn:E.
  - apply String_as_OT.cmp_eq in E. tauto.
  - apply String_as_OT.cmp_lt in E. tauto.
  - split; [discriminate|]. intros [-> | H].
    + assert (String.compare s2 s2 = Eq) as E' by now apply String_as_OT.cmp_eq.
      congruence.
    + apply String_as_OT.cmp_lt in H. unfold String_as_OT.cmp in H. congruence.
Qed.

Lemma string_leb_trans (s1 s2 s3 : string) :
  String.leb s1 s2 = true -> String.leb s2 s3 = true -> String.leb s1 s3 = true.
Proof.
  rewrite !string_leb_iff. intros [-> | H12] [-> | H23]; auto.
  right. eapply String_as_OT.lt_trans; eassumption.
Qed.

(** ** Sorting the rows *)

Lemma RowOrder_trans : Transitive (fun x y => is_true (RowOrder.leb x y)).
Proof.
  intros x y z. unfold RowOrder.leb, is_true. apply string_leb_trans.
Qed.

Lemma sort_index_sorted (rows : list (string * ResultRow)) :
  StronglySorted (fun x y => String.leb (fst x) (fst y) = true) (sort_index rows).
Proof. apply (RowSort.StronglySorted_sort rows RowOrder_trans). Qed.

Lemma sort_index_perm (rows : list (string * ResultRow)) :
  Permutation rows (sort_index rows).
Proof. apply RowSort.Permuted_sort. Qed.

Lemma StronglySorted_map {A B : Type} (R : B -> B -> Prop) (f : A -> B) (l : list A) :
  StronglySorted (fun x y => R (f x) (f y)) l -> StronglySorted R (map f l).
Proof.
  induction 1 as [|x l Hs IH Hall]; simpl; constructor; [exact IH|].
  rewrite Forall_forall in *. intros y Hy.
  apply in_map_iff in Hy as [z [<- Hz]]. now apply Hall.
Qed.

(** Two sorted lists with the same elements are the same list, when the
    order is antisymmetric on those elements. *)
Lemma StronglySorted_perm_eq {A : Type} (R : A -> A -> Prop) (l l' : list A) :
  (forall x y, In x l -> In y l -> R x y -> R y x -> x = y) ->
  StronglySorted R l -> StronglySorted R l' -> Permutation l l' -> l = l'.
Proof.
  intros Hanti Hs. revert l' Hanti.
  induction Hs as [|x l Hs IH Hall]; intros l' Hanti Hs' Hp.
  - apply Permutation_nil in Hp. now subst.
  - destruct l' as [|y l'].
    { apply Permutation_sym, Permutation_nil in Hp. discriminate. }
    inversion Hs' as [|? ? Hs'' Hall']; subst.
    rewrite Forall_forall in Hall, Hall'.
    assert (Hxy : x = y).
    { assert (Hx : In x (y :: l')) by (eapply Permutation_in; [exact Hp | simpl; auto]).
      assert (Hy : In y (x :: l)).
      { eapply Permutation_in; [apply Permutation_sym; exact Hp | simpl; auto]. }
      destruct Hx as [<- | Hx]; [reflexivity|].
      destruct Hy as [-> | Hy]; [reflexivity|].
      apply Hanti; simpl; auto. }
    subst y. f_equal. apply IH.
    + intros; apply Hanti; simpl; auto.
    + exact Hs''.
    + eapply Permutation_cons_inv; eassumption.
Qed.

(** Sorting forgets the order in which rows with distinct labels came. *)
Lemma sort_index_perm_eq (rows rows' : list (string * ResultRow)) :
  NoDup (map fst rows) -> Permutation rows rows' ->
  sort_index rows = sort_index rows'.
Proof.
  intros Hnd Hp.
  apply (StronglySorted_perm_eq
           (fun x y => String.leb (fst x) (fst y) = true)).
  - intros x y Hx Hy Hxy Hyx.
    pose proof (String.leb_antisym _ _ Hxy Hyx) as E.
    apply Permutation_in with (l' := rows) in Hx;
      [|apply Permutation_sym, sort_index_perm].
    apply Permutation_in with (l' := rows) in Hy;
      [|apply Permutation_sym, sort_index_perm].
    clear Hxy Hyx Hp. induction rows as [|r rows IH]; [contradiction|].
    simpl in Hnd. inversion Hnd as [|? ? Hr Hnd']; subst.
    destruct Hx as [-> | Hx], Hy as [-> | Hy]; auto.
    + exfalso. apply Hr. rewrite E. now apply in_map.
    + exfalso. apply Hr. rewrite <- E. now apply in_map.
  - apply sort_index_sorted.
  - apply sort_index_sorted.
  - eapply Permutation_trans; [apply Permutation_sym, sort_index_perm|].
    eapply Permutation_trans; [exact Hp | apply sort_index_perm].
Qed.

(** The sequence of labels after sorting does not depend on the order
    before it. *)
Lemma sort_index_labels (rows rows' : list (string * ResultRow)) :
  Permutation (map fst rows) (map fst rows') ->
  map fst (sort_index rows) = map fst (sort_index rows').
Proof.
  intros Hp.
  apply (StronglySorted_perm_eq (fun x y => String.leb x y = true)).
  - intros x y _ _. apply String.leb_antisym.
  - apply StronglySorted_map, sort_index_sorted.
  - apply StronglySorted_map, sort_index_sorted.
  - eapply Permutation_trans;
      [apply Permutation_sym, Permutation_map, sort_index_perm|].
    eapply Permutation_trans; [exact Hp|].
    apply Permutation_map, sort_index_perm.
Qed.

(** ** The table of results, row by row *)

Lemma nth_map_lt {A B : Type} (f : A -> B) (l : list A) (i : nat) (d : B) (d' : A) :
  (i < length l)%nat -> nth i (map f l) d = f (nth i l d').
Proof.
  intros H. rewrite (nth_indep _ d (f d')) by now rewrite length_map.
  apply map_nth.
Qed.

Lemma results_frame_rows (ccl cno3 cso4 : LinearRegression)
    (unk : list (Q * Q * Q)) (names : list string) :
  length unk = length names ->
  results_frame (map fst3 unk) (map snd3 unk) (map thd3 unk)
    (map (predict ccl) (map fst3 unk))
    (map (predict cno3) (map snd3 unk))
    (map (predict cso4) (map thd3 unk))
    (map (fun c => c / 35.453) (map (predict ccl) (map fst3 unk)))
    (map (fun c => c / 62.0049) (map (predict cno3) (map snd3 unk)))
    (map (fun c => c / 96.06) (map (predict cso4) (map thd3 unk)))
    (map comm (map (predict ccl) (map fst3 unk)))
    (map comm (map (predict cno3) (map snd3 unk)))
    (map comm (map (predict cso4) (map thd3 unk)))
    names
  = map (fun p => (fst p, row_of ccl cno3 cso4 (snd p))) (combine names unk).
Proof.
  intros Hlen. unfold results_frame.
  apply (nth_ext _ _ (""%string, row_of ccl cno3 cso4 (0, 0, 0))
                     (""%string, row_of ccl cno3 cso4 (0, 0, 0))).
  { rewrite !length_map, length_seq, length_combine. lia. }
  intros i Hi. rewrite length_map, length_seq in Hi.
  rewrite (nth_map_lt _ _ _ _ 0%nat) by now rewrite length_seq.
  rewrite seq_nth by exact Hi. simpl plus.
  rewrite (nth_map_lt _ _ _ _ (""%string, (0, 0, 0)))
    by (rewrite length_combine; lia).
  rewrite combine_nth by congruence. simpl fst. simpl snd.
  rewrite !map_map.
  rewrite !(nth_map_lt _ unk i _ (0, 0, 0)) by lia.
  reflexivity.
Qed.

Lemma In_combine_nth_error {A B : Type} (l : list A) (l' : list B) (x : A) (y : B) :
  In (x, y) (combine l l')
  <-> exists i, nth_error l i = Some x /\ nth_error l' i = Some y.
Proof.
  split.
  - intros H. apply In_nth_error in H as [i Hi]. exists i.
    now apply nth_error_combine.
  - intros [i Hi]. apply (nth_error_In _ i). now apply nth_error_combine.
Qed.

(** ** Looking up the standards *)

Lemma list_index_Ok (x : string) (l : list string) (i : nat) :
  list_index x l = Ok i -> nth_error l i = Some x.
Proof.
  revert i. induction l as [|y l IH]; simpl; intros i H; [discriminate|].
  destruct (String.eqb_spec y x) as [-> | Hne].
  - injection H as <-. reflexivity.
  - apply bind_Ok in H as [j [Hj H]]. injection H as <-. simpl. now apply IH.
Qed.

Lemma list_index_In (x : string) (l : list string) :
  In x l -> exists i, list_index x l = Ok i.
Proof.
  induction l as [|y l IH]; simpl; intros H; [contradiction|].
  destruct (String.eqb_spec y x) as [-> | Hne]; [eauto|].
  destruct H as [H | H]; [congruence|].
  destruct (IH H) as [i ->]. simpl. eauto.
Qed.

Lemma list_index_Raise (x : string) (l : list string) (e : exn) :
  list_index x l = Raise e -> e = ValueError_not_in_list /\ ~ In x l.
Proof.
  induction l as [|y l IH]; simpl; intros H.
  - injection H as <-. auto.
  - destruct (String.eqb_spec y x) as [-> | Hne]; [discriminate|].
    apply bind_Raise in H as [H | [j [_ H]]]; [|discriminate].
    destruct (IH H) as [-> Hnin]. split; [reflexivity|]. tauto.
Qed.

Lemma getitem_Ok {A : Type} (l : list A) (i : nat) (x : A) :
  getitem l i = Ok x <-> nth_error l i = Some x.
Proof.
  unfold getitem. destruct (nth_error l i); simpl; split; congruence.
Qed.

(** ** Reading a finished run *)

(** The steps of a run that returned. *)
Ltac run_inv H :=
  unfold DataProc, OutputList in H;
  repeat (let x := fresh "x" in
          let Hx := fresh "Hx" in
          apply bind_Ok in H as [x [Hx H]]);
  injection H as <-; cbn [files samples data stds_indeces stds_data
                           cl_cal no3_cal so4_cal cl_unk no3_unk so4_unk
                           CalibCurve_cl CalibCurve_no3 CalibCurve_so4
                           cl_conc no3_conc so4_conc cl_comm no3_comm so4_comm
                           results cal CalibCurve] in *.

Section RunFacts.

Variable to_numeric : string -> option Q.

Lemma DataProc_steps (cwd : list file) (g : globals) :
  DataProc to_numeric cwd = Ok g ->
  exists calp unk,
    files g = glob_star ".txt" cwd /\
    samples g = map (fun val => splitext_root (fname val)) (files g) /\
    mapM (housekeeping to_numeric) (map read_csv (files g)) = Ok (data g) /\
    Forall2 (fun name i => list_index name (samples g) = Ok i)
            std_names (stds_indeces g) /\
    mapM (getitem (data g)) (stds_indeces g) = Ok (stds_data g) /\
    mapM peaks (stds_data g) = Ok calp /\
    (forall an, cal an g = map (peak_of an) calp /\
                CalibCurve an g = fit (cal an g) stds_known) /\
    mapM peaks (data g) = Ok unk /\
    length unk = length (samples g) /\
    results g
    = sort_index
        (map (fun p => (fst p, row_of (CalibCurve_cl g) (CalibCurve_no3 g)
                                      (CalibCurve_so4 g) (snd p)))
             (combine (samples g) unk)).
Proof.
  intros H. run_inv H. exists x5, x6.
  assert (Hlen : length x6 = length (glob_star ".txt" cwd)).
  { rewrite (mapM_length _ _ _ Hx6), (mapM_length _ _ _ Hx).
    apply length_map. }
  repeat split; try assumption; try reflexivity.
  - unfold std_names. repeat constructor; assumption.
  - destruct an; reflexivity.
  - destruct an; reflexivity.
  - now rewrite length_map.
  - f_equal. apply results_frame_rows. now rewrite length_map.
Qed.

(** A row of the table is the row computed from the frame of its
    sample. *)
Lemma results_row_inv (cwd : list file) (g : globals) (name : string) (r : ResultRow) :
  DataProc to_numeric cwd = Ok g -> In (name, r) (results g) ->
  exists i df pk,
    nth_error (samples g) i = Some name /\ nth_error (data g) i = Some df /\
    peaks df = Ok pk /\
    r = row_of (CalibCurve_cl g) (CalibCurve_no3 g) (CalibCurve_so4 g) pk.
Proof.
  intros H Hin.
  destruct (DataProc_steps cwd g H)
    as (calp & unk & _ & _ & _ & _ & _ & _ & _ & Hunk & _ & Hres).
  rewrite Hres in Hin.
  apply (Permutation_in _ (Permutation_sym (sort_index_perm _))) in Hin.
  apply in_map_iff in Hin as [[name' pk] [E Hin]]. simpl in E.
  injection E as -> <-.
  apply In_combine_nth_error in Hin as [i [Hname Hpk]].
  destruct (mapM_nth_error_inv _ _ _ Hunk i pk Hpk) as [df [Hdf Hpeaks]].
  exists i, df, pk. auto.
Qed.






Lemma Forall2_nth_error {A B : Type} (R : A -> B -> Prop) (l : list A) (l' : list B) :
  Forall2 R l l' ->
  forall k x, nth_error l k = Some x -> exists y, nth_error l' k = Some y /\ R x y.
Proof.
  induction 1 as [|x0 y0 l l' Hxy _ IH]; intros k x Hk.
  - destruct k; discriminate.
  - destruct k as [|k]; simpl in *; [injection Hk as <-; eauto | eauto].
Qed.

Lemma peaks_peak_of (an : anion) (df : DataFrame) (pk : Q * Q * Q) :
  peaks df = Ok pk -> peak an df = Ok (peak_of an pk).
Proof.
  intros H. apply peaks_Ok in H as (Hc & Hn & Hs). now destruct an.
Qed.

(** Entry [k] of the calibration data is the frame of the sample named
    std(k+1), and entry [k] of the calibration peaks is its peak. *)
Lemma std_lookup (cwd : list file) (g : globals) (k : nat) (name : string) :
  DataProc to_numeric cwd = Ok g -> nth_error std_names k = Some name ->
  exists i df pk,
    list_index name (samples g) = Ok i /\
    nth_error (samples g) i = Some name /\
    nth_error (data g) i = Some df /\
    nth_error (stds_data g) k = Some df /\
    peaks df = Ok pk /\
    forall an, nth_error (cal an g) k = Some (peak_of an pk).
Proof.
  intros H Hk.
  destruct (DataProc_steps cwd g H)
    as (calp & unk & _ & _ & _ & Hidx & Hstds & Hcal & Hcurves & _).
  destruct (Forall2_nth_error _ _ _ Hidx k name Hk) as [i [Hi Hname]].
  destruct (mapM_nth_error _ _ _ Hstds k i Hi) as [df [Hdf Hget]].
  destruct (mapM_nth_error _ _ _ Hcal k df Hdf) as [pk [Hpk Hpeaks]].
  exists i, df, pk. repeat split; auto.
  - now apply list_index_Ok.
  - now apply getitem_Ok.
  - intros an. destruct (Hcurves an) as [-> _].
    rewrite nth_error_map, Hpk. reflexivity.
Qed.

Lemma cal_four (cwd : list file) (g : globals) (an : anion) :
  DataProc to_numeric cwd = Ok g ->
  exists p1 p2 p3 p4, cal an g = [p1; p2; p3; p4].
Proof.
  intros H.
  destruct (DataProc_steps cwd g H)
    as (calp & unk & _ & _ & _ & Hidx & Hstds & Hcal & Hcurves & _).
  destruct (Hcurves an) as [-> _].
  apply Forall2_length in Hidx. apply mapM_length in Hstds, Hcal.
  assert (Hlen : length calp = 4%nat) by (unfold std_names in Hidx; simpl in Hidx; congruence).
  destruct calp as [|q1 [|q2 [|q3 [|q4 [|q5 calp]]]]]; try discriminate.
  simpl. eauto.
Qed.


(** C2. For each anion the calibration curve is the least-squares line
    concentration = a * peak + b through exactly four points: the peaks of
    the samples named std1, std2, std3 and std4, paired in that order with
    2.5, 5, 10 and 20. No line has a smaller sum of squared residuals on
    them; and when the four points lie on one line, the curve has residual
    zero and predicts, for every peak, the value of that line. *)
Theorem calibration_is_least_squares_line (cwd : list file) (g : globals) (an : anion) :
  DataProc to_numeric cwd = Ok g ->
  exists p1 p2 p3 p4,
    cal an g = [p1; p2; p3; p4] /\
    (forall k name p,
       nth_error std_names k = Some name ->
       nth_error [p1; p2; p3; p4] k = Some p ->
       exists i df, nth_error (samples g) i = Some name /\
                    nth_error (data g) i = Some df /\
                    peak an df = Ok p) /\
    CalibCurve an g = fit [p1; p2; p3; p4] [2.5; 5; 10; 20] /\
    (forall a b,
       sq_residuals (coef_ (CalibCurve an g)) (intercept_ (CalibCurve an g))
                    [p1; p2; p3; p4] [2.5; 5; 10; 20]
       <= sq_residuals a b [p1; p2; p3; p4] [2.5; 5; 10; 20]) /\
    (forall a b,
       2.5 == a * p1 + b -> 5 == a * p2 + b ->
       10 == a * p3 + b -> 20 == a * p4 + b ->
       sq_residuals (coef_ (CalibCurve an g)) (intercept_ (CalibCurve an g))
                    [p1; p2; p3; p4] [2.5; 5; 10; 20] == 0 /\
       forall x, predict (CalibCurve an g) x == a * x + b).
Proof.
  intros H. destruct (cal_four cwd g an H) as (p1 & p2 & p3 & p4 & Hcal).
  exists p1, p2, p3, p4.
  assert (Hcurve : CalibCurve an g = fit [p1; p2; p3; p4] [2.5; 5; 10; 20]).
  { destruct (DataProc_steps cwd g H)
      as (calp & unk & _ & _ & _ & _ & _ & _ & Hcurves & _).
    destruct (Hcurves an) as [_ ->]. now rewrite Hcal. }
  split; [exact Hcal|]. split; [|split; [exact Hcurve|split]].
  - intros k name p Hk Hp.
    destruct (std_lookup cwd g k name H Hk)
      as (i & df & pk & _ & Hname & Hdf & _ & Hpk & Hcalk).
    exists i, df. repeat split; try assumption.
    specialize (Hcalk an). rewrite Hcal, Hp in Hcalk. injection Hcalk as ->.
    now apply peaks_peak_of.
  - intros a b. rewrite Hcurve. apply fit_least_squares.
  - intros a b H1 H2 H3 H4. rewrite Hcurve.
    destruct (fit_collinear p1 p2 p3 p4 2.5 5 10 20 a b H1 H2 H3 H4
                (stds_known_collinear_distinct a b p1 p2 p3 p4 H1 H2))
      as [Hk Hc].
    split.
    + unfold sq_residuals, Qsum. cbn [map combine fold_right fst snd].
      rewrite Hk, Hc, H1, H2, H3, H4. ring.
    + intros x. unfold predict. rewrite Hk, Hc. reflexivity.
Qed.

Lemma housekeeping_only_to_numeric (n : raw_frame) (e : exn) :
  housekeeping to_numeric n = Raise e -> e = ValueError_to_numeric.
Proof.
  unfold housekeeping. intros H.
  apply bind_Raise in H as [H | [rows [_ H]]]; [|discriminate].
  apply mapM_Raise in H as [r [_ H]].
  destruct (to_numeric (lstrip_colon (col0 r))); simpl in H; [discriminate|].
  congruence.
Qed.

(** A run ends with one of three exceptions: a first column that is not
    numeric, a standard that is missing, or a window without rows. *)
Lemma DataProc_Raise (cwd : list file) (e : exn) :
  DataProc to_numeric cwd = Raise e ->
  e = ValueError_to_numeric \/ e = ValueError_not_in_list \/
  e = ValueError_zero_size.
Proof.
  unfold DataProc, OutputList. intros H.
  apply bind_Raise in H as [H | [dat [Hdat H]]].
  { left. apply mapM_Raise in H as [n [_ H]].
    now apply housekeeping_only_to_numeric in H. }
  apply bind_Raise in H as [H | [i1 [Hi1 H]]].
  { right; left. now apply list_index_Raise in H. }
  apply bind_Raise in H as [H | [i2 [Hi2 H]]].
  { right; left. now apply list_index_Raise in H. }
  apply bind_Raise in H as [H | [i3 [Hi3 H]]].
  { right; left. now apply list_index_Raise in H. }
  apply bind_Raise in H as [H | [i4 [Hi4 H]]].
  { right; left. now apply list_index_Raise in H. }
  apply bind_Raise in H as [H | [stds [Hstds H]]].
  { exfalso. apply mapM_Raise in H as [i [Hin H]].
    assert (Hi : exists name,
               nth_error (map (fun val => splitext_root (fname val))
                              (glob_star ".txt" cwd)) i = Some name).
    { simpl in Hin.
      destruct Hin as [<- | [<- | [<- | [<- | []]]]];
        eexists; apply list_index_Ok; eassumption. }
    destruct Hi as [name Hi].
    assert (Hlt : (i < length dat)%nat).
    { rewrite (mapM_length _ _ _ Hdat), length_map.
      rewrite <- (length_map (fun val => splitext_root (fname val))).
      apply nth_error_Some. congruence. }
    apply nth_error_Some in Hlt. unfold getitem in H.
    destruct (nth_error dat i); [discriminate | congruence]. }
  apply bind_Raise in H as [H | [calp [Hcal H]]].
  { right; right. apply mapM_Raise in H as [df [_ H]].
    now apply peaks_only_zero_size in H. }
  apply bind_Raise in H as [H | [unk [Hunk H]]]; [|discriminate].
  right; right. apply mapM_Raise in H as [df [_ H]].
  now apply peaks_only_zero_size in H.
Qed.

(** C7. When the trace of a discovered sample has no row inside the window
    of an anion, extracting that peak returns no number: [np.max] raises
    on the empty slice, and the run ends with an exception (that one, or an
    earlier one) instead of a table. *)
Theorem empty_window_aborts_run
    (cwd : list file) (f : file) (an : anion) (a b : Q) :
  In f (fst (OutputList ".txt" cwd)) -> window an = (a, b) ->
  (forall k, (k < length (read_csv f))%nat -> ~ in_window a b k) ->
  (forall df, housekeeping to_numeric (read_csv f) = Ok df ->
     peak an df = Raise ValueError_zero_size /\
     peaks df = Raise ValueError_zero_size) /\
  exists e, DataProc to_numeric cwd = Raise e /\
    (e = ValueError_to_numeric \/ e = ValueError_not_in_list \/
     e = ValueError_zero_size).
Proof.
  intros Hf Hw Hempty.
  assert (Hpeak : forall df, housekeeping to_numeric (read_csv f) = Ok df ->
                             peak an df = Raise ValueError_zero_size).
  { intros df Hdf. now apply (peak_empty_window to_numeric (read_csv f) df an a b). }
  split.
  { intros df Hdf. split; [now apply Hpeak|].
    eapply peaks_Raise. now apply Hpeak. }
  destruct (DataProc to_numeric cwd) as [g|e] eqn:E.
  - exfalso.
    destruct (DataProc_steps cwd g E)
      as (calp & unk & Hfiles & _ & Hdata & _ & _ & _ & _ & Hunk & _).
    simpl in Hf. rewrite <- Hfiles in Hf.
    apply (in_map read_csv) in Hf. apply In_nth_error in Hf as [i Hi].
    destruct (mapM_nth_error _ _ _ Hdata i _ Hi) as [df [Hdf Hhk]].
    destruct (mapM_nth_error _ _ _ Hunk i df Hdf) as [pk [_ Hpk]].
    apply (peaks_peak_of an) in Hpk. rewrite (Hpeak df Hhk) in Hpk.
    discriminate.
  - exists e. split; [reflexivity|]. exact (DataProc_Raise cwd e E).
Qed.

End RunFacts.

(** ** Runs over the same files in another order *)

Lemma agree_bind {A A' B B' : Type} (RA : A -> A' -> Prop) (RB : B -> B' -> Prop)
    (m : result A) (m' : result A') (k : A -> result B) (k' : A' -> result B') :
  agree RA m m' ->
  (forall a a', RA a a' -> agree RB (k a) (k' a')) ->
  agree RB (bind m k) (bind m' k').
Proof.
  destruct m as [a|e], m' as [a'|e']; simpl; intros H Hk;
    try contradiction; auto.
Qed.

Lemma agree_refl {A : Type} (m : result A) : agree eq m m.
Proof. destruct m; simpl; reflexivity. Qed.

Lemma agree_eq {A : Type} (m m' : result A) : agree eq m m' -> m = m'.
Proof.
  destruct m, m'; simpl; intros H; try contradiction; congruence.
Qed.

Lemma Permutation_filter_compat {A : Type} (f : A -> bool) (l l' : list A) :
  Permutation l l' -> Permutation (filter f l) (filter f l').
Proof.
  induction 1 as [|x l l' _ IH|x y l|l l' l'' _ IH1 _ IH2]; simpl.
  - constructor.
  - destruct (f x); [now constructor | exact IH].
  - destruct (f x), (f y); try reflexivity. constructor.
  - eapply Permutation_trans; eassumption.
Qed.

Lemma mapM_Ok_In {A B : Type} (f : A -> result B) (l : list A) (ys : list B) (x : A) :
  mapM f l = Ok ys -> In x l -> exists y, f x = Ok y.
Proof.
  intros H Hin. apply In_nth_error in Hin as [i Hi].
  destruct (mapM_nth_error f l ys H i x Hi) as [y [_ Hy]]. eauto.
Qed.

(** A loop whose iterations raise one kind of exception ends alike on two
    orders of the same elements. *)
Lemma mapM_perm {A B : Type} (d : B) (e0 : exn) (f : A -> result B) (l l' : list A) :
  (forall x e, f x = Raise e -> e = e0) ->
  Permutation l l' ->
  agree (fun ys ys' => ys = map (fun x => get_or d (f x)) l /\
                       ys' = map (fun x => get_or d (f x)) l')
        (mapM f l) (mapM f l').
Proof.
  intros He Hp. destruct (mapM f l) as [ys|e] eqn:E.
  - destruct (mapM_all_Ok f l') as [ys' E'].
    { intros x Hx. apply (mapM_Ok_In f l ys x E).
      eapply Permutation_in; [apply Permutation_sym; exact Hp | exact Hx]. }
    rewrite E'. simpl. split; now apply mapM_Ok_map.
  - destruct (mapM_Raise f l e E) as [x [Hx Hfx]].
    pose proof (He x e Hfx) as ->.
    destruct (mapM_In_Raise f l' x e0) as [e' E']; [|exact Hfx|].
    { eapply Permutation_in; eassumption. }
    rewrite E'. simpl.
    destruct (mapM_Raise f l' e' E') as [x' [_ Hfx']].
    symmetry. now apply (He x').
Qed.

Lemma list_index_perm (x : string) (l l' : list string) :
  Permutation l l' ->
  agree (fun i i' => nth_error l i = Some x /\ nth_error l' i' = Some x)
        (list_index x l) (list_index x l').
Proof.
  intros Hp. destruct (list_index x l) as [i|e] eqn:E.
  - destruct (list_index_In x l') as [i' E'].
    { eapply Permutation_in; [exact Hp|].
      eapply nth_error_In. now apply list_index_Ok in E; eauto. }
    rewrite E'. simpl. split; now apply list_index_Ok.
  - apply list_index_Raise in E as [-> Hnin].
    destruct (list_index x l') as [i'|e'] eqn:E'; simpl.
    + apply Hnin. eapply Permutation_in; [apply Permutation_sym; exact Hp|].
      eapply nth_error_In. apply list_index_Ok. exact E'.
    + apply list_index_Raise in E' as [-> _]. reflexivity.
Qed.

Lemma NoDup_map_In_inj {A B : Type} (g : A -> B) (l : list A) (x y : A) :
  NoDup (map g l) -> In x l -> In y l -> g x = g y -> x = y.
Proof.
  induction l as [|z l IH]; simpl; intros Hnd Hx Hy E; [contradiction|].
  inversion Hnd as [|? ? Hz Hnd']; subst.
  destruct Hx as [-> | Hx], Hy as [-> | Hy]; auto.
  - exfalso. apply Hz. rewrite E. now apply in_map.
  - exfalso. apply Hz. rewrite <- E. now apply in_map.
Qed.

Lemma nth_error_map_inv {A B : Type} (g : A -> B) (l : list A) (i : nat) (y : B) :
  nth_error (map g l) i = Some y -> exists x, nth_error l i = Some x /\ g x = y.
Proof.
  rewrite nth_error_map. destruct (nth_error l i) as [x|]; simpl;
    [|discriminate].
  intros H. injection H as <-. eauto.
Qed.

(** Looking a name up and reading the frame at its position finds the
    frame of the file with that name, wherever the file stands. *)
Lemma getitem_by_name {A B : Type} (stem : A -> string) (D : A -> B)
    (F F' : list A) (name : string) (i i' : nat) :
  NoDup (map stem F) -> Permutation F F' ->
  nth_error (map stem F) i = Some name ->
  nth_error (map stem F') i' = Some name ->
  agree eq (getitem (map D F) i) (getitem (map D F') i').
Proof.
  intros Hnd Hp Hi Hi'.
  apply nth_error_map_inv in Hi as [f [Hf Hs]].
  apply nth_error_map_inv in Hi' as [f' [Hf' Hs']].
  assert (f = f').
  { apply (NoDup_map_In_inj stem F); auto.
    - eapply nth_error_In; eassumption.
    - eapply Permutation_in; [apply Permutation_sym; exact Hp|].
      eapply nth_error_In; eassumption.
    - congruence. }
  subst f'. unfold getitem. rewrite !nth_error_map, Hf, Hf'. reflexivity.
Qed.

Lemma mapM_agree {A A' B : Type} (f : A -> result B) (f' : A' -> result B)
    (l : list A) (l' : list A') :
  Forall2 (fun x x' => agree eq (f x) (f' x')) l l' ->
  agree eq (mapM f l) (mapM f' l').
Proof.
  induction 1 as [|x x' l l' Hx _ IH]; simpl; [reflexivity|].
  apply agree_bind with (RA := eq); [exact Hx|]. intros y ? <-.
  apply agree_bind with (RA := eq); [exact IH|]. intros ys ? <-.
  simpl. reflexivity.
Qed.

Lemma combine_map_map {A B C : Type} (f : A -> B) (g : A -> C) (l : list A) :
  combine (map f l) (map g l) = map (fun x => (f x, g x)) l.
Proof. induction l as [|x l IH]; simpl; [reflexivity | now rewrite IH]. Qed.

Section OrderFacts.

Variable to_numeric : string -> option Q.

(** Two enumerations of the same directory end alike: with the same
    exception, or with the same table. *)
Lemma report_perm (cwd cwd' : list file) :
  NoDup (map fname cwd) -> Permutation cwd cwd' ->
  agree eq (report to_numeric cwd) (report to_numeric cwd').
Proof.
  intros Hnd Hp. unfold report.
  apply agree_bind with (RA := fun g g' => results g = results g');
    [|now intros g g' ->].
  unfold DataProc, OutputList.
  pose proof (samples_NoDup cwd Hnd) as HndS. unfold OutputList in HndS.
  simpl in HndS.
  assert (HpF : Permutation (glob_star ".txt" cwd) (glob_star ".txt" cwd'))
    by now apply Permutation_filter_compat.
  set (F := glob_star ".txt" cwd) in *.
  set (F' := glob_star ".txt" cwd') in *.
  set (stem := fun val : file => splitext_root (fname val)) in *.
  set (d0 := {| index := []; values := [] |}).
  eapply agree_bind.
  { apply (mapM_perm d0 ValueError_to_numeric).
    - apply housekeeping_only_to_numeric.
    - apply Permutation_map. exact HpF. }
  intros dat dat' [-> ->]. rewrite !map_map.
  set (D := fun f : file => get_or d0 (housekeeping to_numeric (read_csv f))).
  assert (HpS : Permutation (map stem F) (map stem F'))
    by now apply Permutation_map.
  eapply agree_bind; [apply (list_index_perm "std1" _ _ HpS)|].
  intros i1 i1' [H1 H1'].
  eapply agree_bind; [apply (list_index_perm "std2" _ _ HpS)|].
  intros i2 i2' [H2 H2'].
  eapply agree_bind; [apply (list_index_perm "std3" _ _ HpS)|].
  intros i3 i3' [H3 H3'].
  eapply agree_bind; [apply (list_index_perm "std4" _ _ HpS)|].
  intros i4 i4' [H4 H4'].
  apply agree_bind with (RA := eq).
  { apply mapM_agree.
    repeat constructor; eapply (getitem_by_name stem D F F'); eassumption. }
  intros stds ? <-.
  apply agree_bind with (RA := eq); [apply agree_refl|].
  intros calp ? <-.
  eapply agree_bind.
  { apply (mapM_perm (0, 0, 0) ValueError_zero_size).
    - apply peaks_only_zero_size.
    - apply Permutation_map. exact HpF. }
  intros unk unk' [-> ->]. cbn [agree results].
  rewrite !results_frame_rows by now rewrite !length_map.
  rewrite !(map_map D), !combine_map_map, !map_map. cbn [fst snd].
  apply sort_index_perm_eq.
  - rewrite map_map. cbn [fst]. exact HndS.
  - apply Permutation_map. exact HpF.
Qed.

Lemma map_fst_combine {A B : Type} (l : list A) (l' : list B) :
  length l' = length l -> map fst (combine l l') = l.
Proof.
  revert l'. induction l as [|x l IH]; intros [|y l'] H; simpl in *;
    try discriminate; [reflexivity|].
  f_equal. apply IH. congruence.
Qed.

(** The labels of the table are the sample names, sorted. *)
Lemma results_labels (cwd : list file) (g : globals) :
  DataProc to_numeric cwd = Ok g ->
  exists rows, results g = sort_index rows /\ map fst rows = samples g.
Proof.
  intros H.
  destruct (DataProc_steps to_numeric cwd g H)
    as (calp & unk & _ & _ & _ & _ & _ & _ & _ & _ & Hlen & Hres).
  eexists. split; [exact Hres|].
  rewrite map_map. cbn [fst]. now apply map_fst_combine.
Qed.

(** C9. The rows of the table are in lexicographic order of their sample
    names (strings compared character by character), and they are the
    samples found; listing the files of the directory in another order
    gives the same sequence of row labels, and a run that returned
    returns again when the file names are distinct. *)
Theorem rows_sorted_by_sample_name (cwd : list file) (g : globals) :
  DataProc to_numeric cwd = Ok g ->
  StronglySorted (fun s1 s2 => String.leb s1 s2 = true) (map fst (results g)) /\
  Permutation (samples g) (map fst (results g)) /\
  forall cwd', Permutation cwd cwd' ->
    (forall g', DataProc to_numeric cwd' = Ok g' ->
                map fst (results g') = map fst (results g)) /\
    (NoDup (map fname cwd) -> exists g', DataProc to_numeric cwd' = Ok g').
Proof.
  intros H. destruct (results_labels cwd g H) as [rows [Hres Hrows]].
  split; [|split].
  - rewrite Hres. apply StronglySorted_map, sort_index_sorted.
  - rewrite Hres, <- Hrows. apply Permutation_map, sort_index_perm.
  - intros cwd' Hp. split.
    + intros g' H'. destruct (results_labels cwd' g' H') as [rows' [Hres' Hrows']].
      rewrite Hres, Hres'. apply sort_index_labels. rewrite Hrows, Hrows'.
      destruct (DataProc_steps to_numeric cwd g H) as (? & ? & Hf & Hs & _).
      destruct (DataProc_steps to_numeric cwd' g' H') as (? & ? & Hf' & Hs' & _).
      rewrite Hs, Hs', Hf, Hf'. apply Permutation_map.
      apply Permutation_filter_compat. now apply Permutation_sym.
    + intros Hnd. pose proof (report_perm cwd cwd' Hnd Hp) as Ha.
      unfold report in Ha. rewrite H in Ha. simpl in Ha.
      destruct (DataProc to_numeric cwd') as [g'|e']; [eauto | contradiction].
Qed.

(** C10. The table is a function of the set of files, names with
    contents: two directories with distinct file names that hold the same
    files give the same report (the same rows with the same peaks,
    concentrations and comments, or the same exception), in whatever order
    their files are listed. *)
Theorem report_is_function_of_directory (cwd cwd' : list file) :
  NoDup (map fname cwd) -> NoDup (map fname cwd') ->
  (forall f, In f cwd <-> In f cwd') ->
  report to_numeric cwd = report to_numeric cwd'.
Proof.
  intros Hnd Hnd' Hsame. apply agree_eq. apply report_perm; [exact Hnd|].
  apply NoDup_Permutation; [| |exact Hsame].
  - eapply NoDup_map_inv; eassumption.
  - eapply NoDup_map_inv; eassumption.
Qed.

End OrderFacts.

(** ** The properties on example files *)

(** File names, sample names and the colon of the first column. *)
Example splitext_root_examples :
  splitext_root "std1.txt" = "std1"%string /\
  splitext_root "run.2.txt" = "run.2"%string /\
  splitext_root ".txt" = ".txt"%string /\
  splitext_root "readme" = "readme"%string.
Proof. repeat split. Qed.

Example glob_star_examples :
  map fname (glob_star ".txt" lab_cwd)
  = ["river.txt"%string; "std3.txt"%string; "std1.txt"%string;
     "std4.txt"%string; "blank.txt"%string; "std2.txt"%string] /\
  glob_star ".txt" [{| fname := ".txt"; parsed := [] |};
                    {| fname := "txt"; parsed := [] |};
                    {| fname := "a.txt.bak"; parsed := [] |}] = [].
Proof. split; reflexivity. Qed.

Example lstrip_colon_examples :
  lstrip_colon ":12" = "12"%string /\
  lstrip_colon "::12" = "12"%string /\
  lstrip_colon "1:2" = "1:2"%string.
Proof. repeat split. Qed.

Lemma minutes_300 : minutes 300 == 5.
Proof. reflexivity. Qed.

Lemma in_window_Cl_300 : in_window 5 7 300.
Proof. split; vm_compute; discriminate. Qed.

Lemma housekeeping_two_column :
  housekeeping digits_to_numeric two_column_trace = Ok two_column_frame.
Proof. vm_compute. reflexivity. Qed.

Lemma housekeeping_flat_5 :
  housekeeping digits_to_numeric (flat_trace ":5") = Ok (flat_frame 5).
Proof. vm_compute. reflexivity. Qed.

Lemma lab_cwd_runs : exists g, DataProc digits_to_numeric lab_cwd = Ok g.
Proof. vm_compute. eexists. reflexivity. Qed.

Lemma lab_cwd_NoDup : NoDup (map fname lab_cwd).
Proof.
  simpl. repeat constructor; simpl; intuition discriminate.
Qed.

(** C1, counterexample. A trace with a second column: every row reads
    ":1 100". In the chloride window the greatest conductance is 1; the
    extracted peak is 100, and so are the other two peaks. *)
Lemma peak_exceeds_conductance_maximum :
  housekeeping digits_to_numeric two_column_trace = Ok two_column_frame /\
  greatest (window_SpCond 5 7 two_column_frame) 1 /\
  peak Cl two_column_frame = Ok 100 /\
  peaks two_column_frame = Ok (100, 100, 100) /\
  ~ 100 == 1.
Proof.
  split; [exact housekeeping_two_column|]. split; [|split; [|split]].
  - split.
    + exists 300%nat, [1; 100]. split; [reflexivity|].
      split; [exact in_window_Cl_300 | reflexivity].
    + intros x (k & row & Hk & _ & Hx).
      apply nth_error_In in Hk. apply repeat_spec in Hk. subst row.
      simpl in Hx. injection Hx as <-. apply Qle_refl.
  - vm_compute. reflexivity.
  - vm_compute. reflexivity.
  - intros H. vm_compute in H. discriminate.
Qed.

(** On a flat trace reading 5, the chloride peak is the greatest value of
    the window, 5. *)
Lemma peak_is_window_maximum_witness :
  housekeeping digits_to_numeric (flat_trace ":5") = Ok (flat_frame 5) /\
  window Cl = (5, 7) /\
  greatest (window_cell 5 7 (flat_frame 5)) 5.
Proof.
  split; [exact housekeeping_flat_5|]. split; [reflexivity|].
  apply (peak_is_window_maximum digits_to_numeric (flat_trace ":5")
           (flat_frame 5) Cl 5 7 housekeeping_flat_5 eq_refl).
  vm_compute. reflexivity.
Defined.

(** C4, counterexample. A trace of one row whose first column reads ":7":
    the time of the row is 0 minutes, and the first column, 7, ends as the
    row's conductance; 0 is not 7 / 60. *)
Lemma time_is_not_first_column_over_60 :
  housekeeping digits_to_numeric one_row_trace = Ok one_row_frame /\
  digits_to_numeric (lstrip_colon ":7") = Some 7 /\
  index one_row_frame = [minutes 0] /\
  values one_row_frame = [[7]] /\
  ~ minutes 0 == 7 / 60.
Proof.
  repeat split; try reflexivity.
  intros H. vm_compute in H. discriminate.
Qed.

(** The only row of the one-row trace is at 0 / 60 minutes. *)
Lemma time_is_row_position_over_60_witness :
  housekeeping digits_to_numeric one_row_trace = Ok one_row_frame /\
  nth_error (index one_row_frame) 0 = Some (inject_Z (Z.of_nat 0) / 60).
Proof.
  split; [reflexivity|].
  apply (proj2 (time_is_row_position_over_60 digits_to_numeric one_row_trace
                  one_row_frame eq_refl)
           0%nat {| col0 := ":7"; cols := [] |} eq_refl).
Defined.

(** In the two-column trace the second column bounds the chloride window
    and is the peak. *)
Lemma peak_is_joint_over_columns_witness :
  housekeeping digits_to_numeric two_column_trace = Ok two_column_frame /\
  window Cl = (5, 7) /\
  exists m, peak Cl two_column_frame = Ok m /\ m == 100.
Proof.
  split; [exact housekeeping_two_column|]. split; [reflexivity|].
  apply (peak_is_joint_over_columns digits_to_numeric two_column_trace
           two_column_frame Cl 5 7 housekeeping_two_column eq_refl)
    with (j := 1%nat).
  - exists 300%nat, [1; 100]. split; [reflexivity|].
    split; [exact in_window_Cl_300 | reflexivity].
  - intros y [j (k & row & Hk & _ & Hy)].
    apply nth_error_In in Hk. apply repeat_spec in Hk. subst row.
    destruct j as [|[|j]]; simpl in Hy.
    + injection Hy as <-. vm_compute. discriminate.
    + injection Hy as <-. apply Qle_refl.
    + destruct j; discriminate.
Defined.

(** The chloride curve of the example directory is fitted to four
    peaks. *)
Lemma calibration_is_least_squares_line_witness :
  exists g, DataProc digits_to_numeric lab_cwd = Ok g /\
    exists p1 p2 p3 p4,
      cal Cl g = [p1; p2; p3; p4] /\
      CalibCurve Cl g = fit [p1; p2; p3; p4] [2.5; 5; 10; 20].
Proof.
  destruct lab_cwd_runs as [g Hg]. exists g. split; [exact Hg|].
  destruct (calibration_is_least_squares_line digits_to_numeric lab_cwd g Cl Hg)
    as (p1 & p2 & p3 & p4 & Hcal & _ & Hfit & _).
  exists p1, p2, p3, p4. split; assumption.
Defined.



Lemma short_file_has_no_Cl_window (k : nat) :
  (k < length (read_csv short_file))%nat -> ~ in_window 5 7 k.
Proof.
  intros Hk [H _]. apply (Qle_not_lt _ _ H).
  rewrite <- minutes_300. apply minutes_lt.
  change (k < length (repeat {| col0 := ":3"; cols := [] |} 100))%nat in Hk.
  rewrite repeat_length in Hk. lia.
Qed.

(** With the short trace in the directory the run ends with an
    exception. *)
Lemma empty_window_aborts_run_witness :
  In short_file (fst (OutputList ".txt" (short_file :: lab_cwd))) /\
  window Cl = (5, 7) /\
  exists e, DataProc digits_to_numeric (short_file :: lab_cwd) = Raise e /\
    (e = ValueError_to_numeric \/ e = ValueError_not_in_list \/
     e = ValueError_zero_size).
Proof.
  assert (Hin : In short_file (fst (OutputList ".txt" (short_file :: lab_cwd))))
    by (left; reflexivity).
  split; [exact Hin|]. split; [reflexivity|].
  apply (empty_window_aborts_run digits_to_numeric (short_file :: lab_cwd)
           short_file Cl 5 7 Hin eq_refl short_file_has_no_Cl_window).
Defined.


(** The labels of the example directory are sorted. *)
Lemma rows_sorted_by_sample_name_witness :
  exists g, DataProc digits_to_numeric lab_cwd = Ok g /\
    StronglySorted (fun s1 s2 => String.leb s1 s2 = true) (map fst (results g)).
Proof.
  destruct lab_cwd_runs as [g Hg]. exists g. split; [exact Hg|].
  exact (proj1 (rows_sorted_by_sample_name digits_to_numeric lab_cwd g Hg)).
Defined.

(** The example directory listed backwards gives the same report. *)
Lemma report_is_function_of_directory_witness :
  NoDup (map fname lab_cwd) /\ NoDup (map fname (rev lab_cwd)) /\
  report digits_to_numeric lab_cwd = report digits_to_numeric (rev lab_cwd).
Proof.
  assert (Hr : NoDup (map fname (rev lab_cwd))).
  { rewrite map_rev. apply NoDup_rev. exact lab_cwd_NoDup. }
  split; [exact lab_cwd_NoDup|]. split; [exact Hr|].
  apply (report_is_function_of_directory digits_to_numeric lab_cwd
           (rev lab_cwd) lab_cwd_NoDup Hr).
  intros f. apply in_rev.
Defined.

(** The report of the example directory: the samples in order, the
    standards at their known concentrations, the blank flagged. *)
Lemma lab_report :
  exists rows,
    report digits_to_numeric lab_cwd = Ok rows /\
    map fst rows
    = ["blank"%string; "river"%string; "std1"%string; "std2"%string;
       "std3"%string; "std4"%string] /\
    map (fun p => Comments_Cl (snd p)) rows
    = ["below std1"%string; ""%string; ""%string; ""%string; ""%string;
       ""%string] /\
    Forall2 (fun p c => Cl_ppm (snd p) == c) rows [1; 3.5; 2.5; 5; 10; 20].
Proof.
  vm_compute. eexists. split; [reflexivity|]. split; [reflexivity|].
  split; [reflexivity|]. repeat constructor.
Qed.

Lemma short_file_report :
  report digits_to_numeric (short_file :: lab_cwd) = Raise ValueError_zero_size.
Proof. vm_compute. reflexivity. Qed.

(** The rows at 5 and 7 minutes (positions 300 and 420) count for the
    chloride peak, the rows next to them outside the window do not; the
    same at 12.5 and 15 minutes (positions 750 and 900) for sulfate. *)
Lemma spike_at_window_bounds :
  peak_of_trace Cl (spike_trace 299 902) = Ok 1 /\
  peak_of_trace Cl (spike_trace 300 902) = Ok 9 /\
  peak_of_trace Cl (spike_trace 420 902) = Ok 9 /\
  peak_of_trace Cl (spike_trace 421 902) = Ok 1 /\
  peak_of_trace SO4 (spike_trace 749 902) = Ok 1 /\
  peak_of_trace SO4 (spike_trace 750 902) = Ok 9 /\
  peak_of_trace SO4 (spike_trace 900 902) = Ok 9 /\
  peak_of_trace SO4 (spike_trace 901 902) = Ok 1.
Proof. repeat split; vm_compute; reflexivity. Qed.

(** * Further properties of the script *)

(** ** File discovery *)

Lemma endswith_intro (ext p : string) : endswith ext (p ++ ext) = true.
Proof.
  induction p as [|c p IH].
  - destruct ext; cbn [append endswith]; now rewrite String.eqb_refl.
  - cbn [append endswith]. rewrite IH. apply orb_true_r.
Qed.

Lemma glob_star_In (cwd : list file) (f : file) :
  In f (glob_star ".txt" cwd) <->
  In f cwd /\ ishidden (fname f) = false /\
  exists p, fname f = (p ++ ".txt")%string.
Proof.
  unfold glob_star. rewrite filter_In, andb_true_iff, negb_true_iff. split.
  - intros (Hin & Hh & He). repeat split; auto.
    now apply endswith_append.
  - intros (Hin & Hh & p & Hp). repeat split; auto.
    rewrite Hp. apply endswith_intro.
Qed.

(** X1. [OutputList(".txt")] returns the files of the directory whose name
    is not hidden and ends in ".txt", and nothing else; it returns one
    sample name per file, at the same position, and the sample name
    followed by ".txt" is the file's name again; no sample name is empty
    or starts with a dot. *)
Theorem OutputList_names (cwd : list file) :
  length (snd (OutputList ".txt" cwd)) = length (fst (OutputList ".txt" cwd)) /\
  (forall f, In f (fst (OutputList ".txt" cwd)) <->
             In f cwd /\ ishidden (fname f) = false /\
             exists p, fname f = (p ++ ".txt")%string) /\
  (forall i f, nth_error (fst (OutputList ".txt" cwd)) i = Some f ->
     exists s, nth_error (snd (OutputList ".txt" cwd)) i = Some s /\
               fname f = (s ++ ".txt")%string /\
               ishidden s = false /\ s <> EmptyString).
Proof.
  unfold OutputList. cbn [fst snd]. split; [apply length_map|]. split.
  - intros f. apply glob_star_In.
  - intros i f Hi. exists (splitext_root (fname f)).
    rewrite nth_error_map, Hi. split; [reflexivity|].
    apply nth_error_In in Hi.
    pose proof (proj1 (glob_star_In cwd f) Hi) as (_ & Hh & _).
    apply glob_star_name in Hi as [_ Hname].
    split; [exact Hname|].
    rewrite Hname in Hh.
    destruct (splitext_root (fname f)) as [|c s]; [discriminate|].
    split; [exact Hh | discriminate].
Qed.

(** ** Stripping the colons *)

(** X4. [x.lstrip(':')] removes the colons that lead [x] and nothing
    else: [x] is the result preceded by some number of colons, the result
    does not start with a colon, and stripping twice is stripping once. *)
Theorem lstrip_colon_spec (x : string) :
  (exists k, x = (colons k ++ lstrip_colon x)%string) /\
  (forall y, lstrip_colon x <> String ":" y) /\
  lstrip_colon (lstrip_colon x) = lstrip_colon x.
Proof.
  induction x as [|c x (IH1 & IH2 & IH3)].
  - split; [now exists 0%nat|]. split; [discriminate | reflexivity].
  - cbn [lstrip_colon]. destruct (Ascii.eqb_spec c ":") as [-> | Hne].
    + split; [|split; assumption].
      destruct IH1 as [k Hk]. exists (S k). cbn [colons append]. now f_equal.
    + split; [now exists 0%nat|]. split.
      * intros y H. injection H as H _. contradiction.
      * cbn [lstrip_colon]. destruct (Ascii.eqb_spec c ":"); [contradiction|].
        reflexivity.
Qed.

(** ** When a peak exists *)

Lemma first_row_opens (an : anion) :
  in_window (fst (window an)) (snd (window an)) (first_row an) /\
  minutes (first_row an) == fst (window an).
Proof.
  destruct an; (split; [split; vm_compute; discriminate | reflexivity]).
Qed.

Section MoreFacts.

Variable to_numeric : string -> option Q.




Lemma peak_defined_iff (n : raw_frame) (df : DataFrame) (an : anion) :
  housekeeping to_numeric n = Ok df ->
  ((exists m, peak an df = Ok m) <-> (first_row an < length n)%nat) /\
  (peak an df = Raise ValueError_zero_size <-> (length n <= first_row an)%nat).
Proof.
  intros H.
  destruct (first_row_opens an) as [Hopen Hmin].
  destruct (window an) as [a b] eqn:Hw. cbn [fst snd] in Hopen, Hmin.
  assert (Hiff : (exists m, peak an df = Ok m) <-> (first_row an < length n)%nat).
  { split.
    - intros [m Hm].
      destruct (peak_greatest to_numeric n df an a b m H Hw Hm)
        as [(j & k & row & Hk & [Ha _] & _) _].
      destruct (housekeeping_inv to_numeric n df H) as (_ & Hlen & _).
      assert (Hklen : (k < length n)%nat).
      { rewrite <- Hlen. apply nth_error_Some. congruence. }
      assert (k < first_row an \/ first_row an <= k)%nat as [Hlt | Hge] by lia;
        [|lia].
      exfalso. apply (Qle_not_lt _ _ Ha). rewrite <- Hmin.
      now apply minutes_lt.
    - intros Hlt.
      destruct (nth_error n (first_row an)) as [r|] eqn:Hr.
      + destruct (housekeeping_inv to_numeric n df H) as (_ & _ & Hrows).
        destruct (Hrows _ r Hr) as [v [_ Hrow]].
        apply (peak_defined to_numeric n df an a b v H Hw).
        exists 0%nat, (first_row an), (v :: cols r). auto.
      + apply nth_error_None in Hr. lia. }
  split; [exact Hiff|]. split.
  - intros Hraise.
    assert (first_row an < length n \/ length n <= first_row an)%nat
      as [Hlt | Hge] by lia; [|exact Hge].
    apply Hiff in Hlt as [m Hm]. congruence.
  - intros Hle. destruct (peak an df) as [m|e] eqn:E.
    + assert (first_row an < length n)%nat by (apply Hiff; eauto). lia.
    + f_equal. now apply peak_only_zero_size in E.
Qed.

Lemma peaks_defined_iff (n : raw_frame) (df : DataFrame) :
  housekeeping to_numeric n = Ok df ->
  ((exists pk, peaks df = Ok pk) <-> (750 < length n)%nat).
Proof.
  intros H.
  pose proof (proj1 (peak_defined_iff n df Cl H)) as HCl.
  pose proof (proj1 (peak_defined_iff n df NO3 H)) as HNO3.
  pose proof (proj1 (peak_defined_iff n df SO4 H)) as HSO4.
  cbn [first_row] in *. split.
  - intros [pk Hpk]. apply peaks_Ok in Hpk as (_ & _ & Hs).
    apply HSO4. eauto.
  - intros Hlen.
    destruct (proj2 HCl) as [c Hc]; [lia|].
    destruct (proj2 HNO3) as [x Hx]; [lia|].
    destruct (proj2 HSO4) as [s Hs]; [lia|].
    exists (c, x, s). apply peaks_Ok. auto.
Qed.

(** X7. The peak of an anion exists exactly when the trace reaches the
    row at which the anion's window opens: more than 300 rows for
    chloride, more than 540 for nitrate, more than 750 for sulfate.
    Otherwise [np.max] raises; so the three peaks of a trace exist exactly
    when it has more than 750 rows. *)
Theorem peak_exists_iff_trace_reaches_window
    (n : raw_frame) (df : DataFrame) (an : anion) :
  housekeeping to_numeric n = Ok df ->
  ((exists m, peak an df = Ok m) <-> (first_row an < length n)%nat) /\
  (peak an df = Raise ValueError_zero_size <-> (length n <= first_row an)%nat) /\
  ((exists pk, peaks df = Ok pk) <-> (750 < length n)%nat).
Proof.
  intros H. destruct (peak_defined_iff n df an H) as [H1 H2].
  split; [exact H1|]. split; [exact H2|]. now apply peaks_defined_iff.
Qed.

(** ** How a run ends *)

(** The frame at a position of [data] is the housekept frame of the file
    at that position of [files]. *)
Lemma frames_of_files (F : list file) (dat : list DataFrame) :
  mapM (housekeeping to_numeric) (map read_csv F) = Ok dat ->
  (forall i df, nth_error dat i = Some df ->
     exists f, nth_error F i = Some f /\
               housekeeping to_numeric (read_csv f) = Ok df) /\
  (forall f, In f F -> exists df, housekeeping to_numeric (read_csv f) = Ok df).
Proof.
  intros H. split.
  - intros i df Hi.
    destruct (mapM_nth_error_inv _ _ _ H i df Hi) as [n [Hn Hdf]].
    apply nth_error_map_inv in Hn as [f [Hf <-]]. eauto.
  - intros f Hf. apply In_nth_error in Hf as [i Hi].
    destruct (mapM_nth_error _ _ _ H i (read_csv f)) as [df [_ Hdf]];
      [|eauto].
    now rewrite nth_error_map, Hi.
Qed.






End MoreFacts.

(** ** Rows outside a window *)

Lemma inside_in_window (a b : Q) (s : nat) (r : list Q) :
  inside a b (minutes s, r) = true <-> in_window a b s.
Proof.
  unfold inside, in_window. cbn [fst]. rewrite andb_true_iff.
  now rewrite !Qle_bool_iff.
Qed.

Lemma rows_between_rows_from (a b : Q) (s : nat) (rows : list (list Q)) :
  map snd (filter (inside a b)
                  (combine (map minutes (seq s (length rows))) rows))
  = rows_from a b s rows.
Proof.
  revert s. induction rows as [|r rows IH]; intros s; [reflexivity|].
  cbn [length seq map combine filter rows_from].
  destruct (inside a b (minutes s, r)); cbn [map snd]; now rewrite IH.
Qed.

Lemma rows_from_none (a b : Q) (s : nat) (rows : list (list Q)) :
  (forall k, in_window a b (s + k) -> nth_error rows k = None) ->
  rows_from a b s rows = [].
Proof.
  revert s. induction rows as [|r rows IH]; intros s H; [reflexivity|].
  cbn [rows_from]. destruct (inside a b (minutes s, r)) eqn:E.
  - apply inside_in_window in E. specialize (H 0%nat).
    replace (s + 0)%nat with s in H by lia. specialize (H E). discriminate.
  - apply IH. intros k Hk. apply (H (S k)).
    now replace (s + S k)%nat with (S s + k)%nat by lia.
Qed.

Lemma rows_from_ext (a b : Q) (s : nat) (rows rows' : list (list Q)) :
  (forall k, in_window a b (s + k) -> nth_error rows k = nth_error rows' k) ->
  rows_from a b s rows = rows_from a b s rows'.
Proof.
  revert s rows'. induction rows as [|r rows IH]; intros s rows' H.
  - symmetry. apply rows_from_none. intros k Hk. symmetry.
    rewrite <- (H k Hk). now destruct k.
  - destruct rows' as [|r' rows'].
    + apply rows_from_none. intros k Hk. rewrite (H k Hk). now destruct k.
    + cbn [rows_from].
      assert (Htail : rows_from a b (S s) rows = rows_from a b (S s) rows').
      { apply IH. intros k Hk. apply (H (S k)).
        now replace (s + S k)%nat with (S s + k)%nat by lia. }
      destruct (inside a b (minutes s, r)) eqn:E.
      * assert (E' := E). apply inside_in_window in E'.
        specialize (H 0%nat). replace (s + 0)%nat with s in H by lia.
        specialize (H E').
        injection H as <-. rewrite E. now f_equal.
      * assert (inside a b (minutes s, r') = false) as ->; [|exact Htail].
        rewrite <- E. reflexivity.
Qed.

Section WindowFacts.

Variable to_numeric : string -> option Q.

Lemma housekept_values_ext (n n' : raw_frame) (df df' : DataFrame) (k : nat) :
  housekeeping to_numeric n = Ok df -> housekeeping to_numeric n' = Ok df' ->
  nth_error n k = nth_error n' k ->
  nth_error (values df) k = nth_error (values df') k.
Proof.
  intros H H' Hk.
  destruct (housekeeping_inv to_numeric n df H) as (_ & Hlen & Hrows).
  destruct (housekeeping_inv to_numeric n' df' H') as (_ & Hlen' & Hrows').
  destruct (nth_error n k) as [r|] eqn:E.
  - destruct (Hrows k r E) as [v [Hv ->]].
    destruct (Hrows' k r (eq_sym Hk)) as [v' [Hv' ->]]. congruence.
  - symmetry in Hk. apply nth_error_None in E, Hk.
    assert (nth_error (values df) k = None) as -> by (apply nth_error_None; lia).
    symmetry. apply nth_error_None. lia.
Qed.

(** X8. The rows outside a window never reach the peak: two traces that
    hold the same rows at the positions whose time lies in the window of
    an anion have the same peak for it (or raise alike), whatever they
    hold elsewhere and however long they run. *)
Theorem peak_ignores_rows_outside_window
    (n n' : raw_frame) (df df' : DataFrame) (an : anion) (a b : Q) :
  housekeeping to_numeric n = Ok df -> housekeeping to_numeric n' = Ok df' ->
  window an = (a, b) ->
  (forall k, in_window a b k -> nth_error n k = nth_error n' k) ->
  peak an df = peak an df'.
Proof.
  intros H H' Hw Hsame.
  rewrite !(peak_unfold an a b _ Hw).
  rewrite (loc_rows_between a b df _ (housekept_index to_numeric n df H)).
  rewrite (loc_rows_between a b df' _ (housekept_index to_numeric n' df' H')).
  unfold rows_between.
  rewrite (housekept_index to_numeric n df H).
  rewrite (housekept_index to_numeric n' df' H').
  unfold RangeIndex_div60. rewrite !rows_between_rows_from.
  f_equal. f_equal. apply rows_from_ext. intros k Hk. simpl in Hk.
  apply (housekept_values_ext n n' df df' k H H'). now apply Hsame.
Qed.

End WindowFacts.

(** ** Rows and files *)


Lemma txt_xlsx_clash (s p : string) : (s ++ ".xlsx")%string <> (p ++ ".txt")%string.
Proof.
  revert p. induction s as [|c s IH]; intros p H.
  - destruct p as [|c1 [|c2 p]]; try discriminate.
    injection H as _ _ H.
    destruct p as [|? [|? [|? [|? ?]]]]; discriminate.
  - destruct p as [|c' p].
    + injection H as _ H.
      destruct s as [|? [|? [|? [|? ?]]]]; discriminate.
    + injection H as _ H. exact (IH p H).
Qed.

Lemma basename_no_sep (p : string) : has_sep (basename p) = false.
Proof.
  induction p as [|c p IH]; [reflexivity|].
  cbn [basename]. destruct (has_sep p) eqn:E; [exact IH|].
  destruct (Ascii.eqb_spec c "/") as [-> | Hne]; [exact E|].
  cbn [has_sep]. rewrite E.
  destruct (Ascii.eqb_spec c "/"); [contradiction | reflexivity].
Qed.

Lemma has_sep_app (d n : string) :
  has_sep (d ++ n) = has_sep d || has_sep n.
Proof.
  induction d as [|c d IH]; [reflexivity|].
  cbn [append has_sep]. rewrite IH. apply orb_assoc.
Qed.

Lemma basename_join (d n : string) :
  has_sep n = false -> basename (d ++ String "/" n) = n.
Proof.
  intros Hn. induction d as [|c d IH].
  - cbn [append basename]. now rewrite Hn.
  - cbn [append basename]. rewrite has_sep_app. cbn [has_sep].
    cbn [Ascii.eqb Bool.eqb]. rewrite orb_true_r. exact IH.
Qed.

(** X9. The table is written under the last component of the working
    directory's path followed by ".xlsx": that name has no "/" before the
    extension, and a file of that name, wherever it stands in the
    directory, is not taken for a sample by [OutputList(".txt")], so a
    later run in the same directory does not read the spreadsheet back. *)
Theorem xlsx_is_not_a_sample
    (getcwd d folder : string) (content : raw_frame) (before after : list file) :
  has_sep (basename getcwd) = false /\
  (has_sep folder = false ->
   xlsx_name (d ++ String "/" folder) = (folder ++ ".xlsx")%string) /\
  OutputList ".txt"
    (before ++ {| fname := xlsx_name getcwd; parsed := content |} :: after)
  = OutputList ".txt" (before ++ after).
Proof.
  split; [apply basename_no_sep|]. split.
  - intros Hf. unfold xlsx_name. now rewrite basename_join.
  - unfold OutputList, glob_star. rewrite !filter_app. cbn [filter fname].
    assert (endswith ".txt" (xlsx_name getcwd) = false) as ->.
    { destruct (endswith ".txt" (xlsx_name getcwd)) eqn:E; [|reflexivity].
      apply endswith_append in E as [p Hp]. unfold xlsx_name in Hp.
      now apply txt_xlsx_clash in Hp. }
    rewrite andb_false_r. reflexivity.
Qed.

Lemma NoDup_keys_functional {A B : Type} (l : list (A * B)) (a : A) (b b' : B) :
  NoDup (map fst l) -> In (a, b) l -> In (a, b') l -> b = b'.
Proof.
  intros Hnd H H'.
  assert (E : (a, b) = (a, b')) by (apply (NoDup_map_In_inj fst l); auto).
  congruence.
Qed.

Section RowFacts.

Variable to_numeric : string -> option Q.

(** X2. When the file names of the directory are distinct, no sample has
    two rows: the labels of the table are pairwise distinct, and a label
    determines its row. *)
Theorem one_row_per_sample (cwd : list file) (g : globals) :
  NoDup (map fname cwd) -> DataProc to_numeric cwd = Ok g ->
  NoDup (map fst (results g)) /\
  forall name r r',
    In (name, r) (results g) -> In (name, r') (results g) -> r = r'.
Proof.
  intros Hnd H.
  destruct (results_labels to_numeric cwd g H) as [rows [Hres Hrows]].
  assert (Hlab : NoDup (map fst (results g))).
  { rewrite Hres.
    apply (Permutation_NoDup (Permutation_map fst (sort_index_perm rows))).
    rewrite Hrows.
    destruct (DataProc_steps to_numeric cwd g H) as (? & ? & Hf & Hs & _).
    rewrite Hs, Hf. exact (samples_NoDup cwd Hnd). }
  split; [exact Hlab|]. intros name r r'.
  now apply NoDup_keys_functional.
Qed.

(** X3. Every row of the table comes from the file that bears its name:
    for a row labelled [name] the directory holds a discovered file
    [name ++ ".txt"], and the three peaks of the row are the peaks of that
    file's trace after housekeeping. *)
Theorem row_comes_from_its_file (cwd : list file) (g : globals) :
  DataProc to_numeric cwd = Ok g ->
  forall name r, In (name, r) (results g) ->
    exists f df,
      In f cwd /\ fname f = (name ++ ".txt")%string /\
      housekeeping to_numeric (read_csv f) = Ok df /\
      forall an, peak an df = Ok (row_peak an r).
Proof.
  intros H name r Hin.
  destruct (results_row_inv to_numeric cwd g name r H Hin)
    as (i & df & pk & Hname & Hdf & Hpk & ->).
  destruct (DataProc_steps to_numeric cwd g H)
    as (calp & unk & Hf & Hs & Hdata & _).
  destruct (proj1 (frames_of_files to_numeric _ _ Hdata) i df Hdf)
    as [f [Hfi Hhk]].
  exists f, df.
  rewrite Hs, nth_error_map, Hfi in Hname. injection Hname as <-.
  apply nth_error_In in Hfi. rewrite Hf in Hfi.
  apply glob_star_name in Hfi as [Hcwd Hfn].
  split; [exact Hcwd|]. split; [exact Hfn|]. split; [exact Hhk|].
  intros an. destruct an.
  - exact (peaks_peak_of Cl df pk Hpk).
  - exact (peaks_peak_of NO3 df pk Hpk).
  - exact (peaks_peak_of SO4 df pk Hpk).
Qed.




End RowFacts.

(** ** The further properties on example files *)


Lemma trace_from_housekeeping (val : string) (v : Q) :
  digits_to_numeric (lstrip_colon val) = Some v ->
  housekeeping digits_to_numeric (trace_from val)
  = Ok {| index := RangeIndex_div60 902; values := [v] :: repeat [5] 901 |}.
Proof.
  intros Hv. unfold housekeeping, trace_from. cbn [mapM col0 cols].
  rewrite Hv. cbn [of_option bind].
  change (mapM _ (flat_trace ":5"))
    with (mapM (fun r => v0 <- of_option ValueError_to_numeric
                               (digits_to_numeric (lstrip_colon (col0 r))) ;;
                         Ok (v0 :: cols r)) (flat_trace ":5")).
  assert (mapM (fun r => v0 <- of_option ValueError_to_numeric
                               (digits_to_numeric (lstrip_colon (col0 r))) ;;
                         Ok (v0 :: cols r)) (flat_trace ":5")
          = Ok (repeat [5] 901)) as -> by (vm_compute; reflexivity).
  reflexivity.
Qed.

(** A flat trace of 901 rows reaches the chloride window. *)
Lemma peak_exists_iff_trace_reaches_window_witness :
  housekeeping digits_to_numeric (flat_trace ":5") = Ok (flat_frame 5) /\
  ((exists m, peak Cl (flat_frame 5) = Ok m)
   <-> (first_row Cl < length (flat_trace ":5"))%nat).
Proof.
  split; [exact housekeeping_flat_5|].
  exact (proj1 (peak_exists_iff_trace_reaches_window digits_to_numeric
                  (flat_trace ":5") (flat_frame 5) Cl housekeeping_flat_5)).
Defined.

(** Two traces that differ at 0 minutes have the same chloride peak. *)
Lemma peak_ignores_rows_outside_window_witness :
  (forall k, in_window 5 7 k ->
             nth_error (trace_from ":1") k = nth_error (trace_from ":9") k) /\
  peak Cl {| index := RangeIndex_div60 902; values := [1] :: repeat [5] 901 |}
  = peak Cl {| index := RangeIndex_div60 902; values := [9] :: repeat [5] 901 |}.
Proof.
  assert (Hsame : forall k, in_window 5 7 k ->
             nth_error (trace_from ":1") k = nth_error (trace_from ":9") k).
  { intros [|k] [H _]; [|reflexivity].
    exfalso. vm_compute in H. now apply H. }
  split; [exact Hsame|].
  exact (peak_ignores_rows_outside_window digits_to_numeric
           (trace_from ":1") (trace_from ":9") _ _ Cl 5 7
           (trace_from_housekeeping ":1" 1 eq_refl)
           (trace_from_housekeeping ":9" 9 eq_refl)
           eq_refl Hsame).
Defined.

(** The example directory has one row per sample. *)
Lemma one_row_per_sample_witness :
  NoDup (map fname lab_cwd) /\
  exists g, DataProc digits_to_numeric lab_cwd = Ok g /\
            NoDup (map fst (results g)).
Proof.
  split; [exact lab_cwd_NoDup|].
  destruct lab_cwd_runs as [g Hg]. exists g. split; [exact Hg|].
  exact (proj1 (one_row_per_sample digits_to_numeric lab_cwd g
                  lab_cwd_NoDup Hg)).
Defined.

(** Every row of the example directory has its file. *)
Lemma row_comes_from_its_file_witness :
  exists g, DataProc digits_to_numeric lab_cwd = Ok g /\
    forall name r, In (name, r) (results g) ->
      exists f df,
        In f lab_cwd /\ fname f = (name ++ ".txt")%string /\
        housekeeping digits_to_numeric (read_csv f) = Ok df /\
        forall an, peak an df = Ok (row_peak an r).
Proof.
  destruct lab_cwd_runs as [g Hg]. exists g. split; [exact Hg|].
  exact (row_comes_from_its_file digits_to_numeric lab_cwd g Hg).
Defined.



(** Runs of the example directory without a standard, with a value that is
    not a number, and with both. *)
Lemma failing_runs :
  report digits_to_numeric
    [ {| fname := "std1.txt"; parsed := flat_trace ":5" |} ]
  = Raise ValueError_not_in_list /\
  report digits_to_numeric
    ({| fname := "bad.txt"; parsed := flat_trace ":x" |} :: lab_cwd)
  = Raise ValueError_to_numeric /\
  report digits_to_numeric
    [ {| fname := "bad.txt"; parsed := flat_trace ":x" |} ]
  = Raise ValueError_to_numeric /\
  report digits_to_numeric [] = Raise ValueError_not_in_list.
Proof. repeat split; vm_compute; reflexivity. Qed.
